(** * protonvpn-nm-lib: connection discovery and lifecycle

  A shallow embedding of
    - [protonvpn_nm_lib/core/dbus/dbus_wrapper.py]  (class [DbusWrapper])
    - [protonvpn_nm_lib/core/connection/connection.py] (class [Connection])
  and the properties of the two classes that the specification states.

  Conventions of the embedding.
    - A Python call that may raise returns a [result]: [Ok v] or
      [Raise e].  Only instances of [Exception] are modelled; interrupts
      ([KeyboardInterrupt], [SystemExit]) are outside the model.
    - A Python string is the [string] of the bytes of its UTF-8
      encoding.  Equality of strings is equality of their encodings, and
      one string occurs in another exactly when its encoding occurs in
      the encoding of the other.  [str.lower] follows the Unicode tables
      of the interpreter: it is a parameter of the embedding
      ([StrLower]), of which only its values on ASCII strings are known.
    - The remote NetworkManager service is a [Bus]: one snapshot of what
      each read returns (or raises).  The snapshot does not change
      during one method call.
    - Logging has no effect on results and is left out. *)

From stdpp Require Import base option list strings gmap.
From Stdlib Require Import ZArith Ascii.
From Stdlib Require String.

Open Scope Z_scope.

(** ** Python exceptions and results *)

Module Py.

(** The exception classes the two files name or can meet. *)
Inductive ExnClass : Type :=
| Exception_                    (* the base class [Exception] itself *)
| ProtonVPNException
| ConnectionNotFound
| RemoveConnectionFinishError
| StopConnectionFinishError
| DBusException
| TypeError
| KeyError
| IndexError
| AttributeError
| OtherException (name : string).   (* any other subclass of [Exception] *)

#[global] Instance ExnClass_eq_dec : EqDecision ExnClass.
Proof. solve_decision. Defined.

(** A raised exception: its class and the text [str(e)] yields. *)
Record exn : Type := Raised { exn_class : ExnClass; exn_str : string }.

#[global] Instance exn_eq_dec : EqDecision exn.
Proof. solve_decision. Defined.

(** Modelled from the spec: the [exceptions] module is not among the
    sources.  The error taxonomy of the specification has
    [ConnectionNotFound] and the two finish errors as separate members;
    they are taken as direct subclasses of [ProtonVPNException], which
    derives from [Exception], like every other class above. *)
Definition issubclass (c d : ExnClass) : bool :=
  bool_decide (c = d)
  || bool_decide (d = Exception_)
  || (bool_decide (d = ProtonVPNException)
      && (bool_decide (c = ConnectionNotFound)
          || bool_decide (c = RemoveConnectionFinishError)
          || bool_decide (c = StopConnectionFinishError))).

(** [except d as e] catches [e] when [isinstance e d]. *)
Definition isinstance (e : exn) (d : ExnClass) : bool :=
  issubclass (exn_class e) d.

Inductive result (A : Type) : Type :=
| Ok (a : A)
| Raise (e : exn).
Arguments Ok {A} a.
Arguments Raise {A} e.

#[global] Instance result_ret : MRet result := fun A a => Ok a.
#[global] Instance result_bind : MBind result := fun A B f m =>
  match m with
  | Ok a => f a
  | Raise e => Raise e
  end.

#[global] Instance result_fmap : FMap result := fun A B f m =>
  match m with
  | Ok a => Ok (f a)
  | Raise e => Raise e
  end.

Definition is_ok {A} (r : result A) : bool :=
  match r with Ok _ => true | Raise _ => false end.

(** [d[k]] on a dictionary read as an [option]: a missing key raises
    [KeyError], whose text is the quoted key. *)
Definition getitem {A} (k : string) (o : option A) : result A :=
  match o with
  | Some a => Ok a
  | None => Raise (Raised KeyError ("'" +:+ k +:+ "'"))
  end.

(** [l.pop()]: the last element, [IndexError] on an empty list. *)
Definition pop {A} (l : list A) : result A :=
  match last l with
  | Some a => Ok a
  | None => Raise (Raised IndexError "pop from empty list")
  end.

(** Lower-casing of the ASCII letters: [A]..[Z] become [a]..[z], every
    other byte is kept. *)
Definition lower_ascii (c : ascii) : ascii :=
  let n := nat_of_ascii c in
  if (Nat.leb 65 n && Nat.leb n 90)%bool then ascii_of_nat (n + 32) else c.

Fixpoint ascii_lower (s : string) : string :=
  match s with
  | EmptyString => EmptyString
  | String c s' => String (lower_ascii c) (ascii_lower s')
  end.

(** Every character of [s] is an ASCII character (a byte below 128). *)
Fixpoint is_ascii (s : string) : bool :=
  match s with
  | EmptyString => true
  | String c s' => Nat.ltb (nat_of_ascii c) 128 && is_ascii s'
  end.

(** [str.lower].  What it does to the characters outside ASCII is fixed
    by the Unicode tables of the interpreter, which are not part of the
    program, so the function is a parameter.  On a string of ASCII
    characters it lower-cases the letters [A]..[Z] and keeps the rest;
    nothing else is assumed of it. *)
Class StrLower : Type := {
  str_lower : string -> string;
  str_lower_ascii : forall s, is_ascii s = true -> str_lower s = ascii_lower s
}.

(** A [str.lower] that leaves every non-ASCII byte as it is; it serves
    to run the definitions on ASCII strings. *)
Definition ascii_str_lower : StrLower :=
  {| str_lower := ascii_lower; str_lower_ascii := fun _ _ => eq_refl |}.

(** [a in b] on strings: [a] occurs in [b] as a contiguous run. *)
Fixpoint contains (a b : string) : bool :=
  String.prefix a b
  || match b with
     | EmptyString => false
     | String _ b' => contains a b'
     end.

(** Truth value of a string, as in [if s:]. *)
Definition truthy (s : string) : bool := negb (bool_decide (s = "")).

End Py.

Export Py.

(** ** The D-Bus wrapper ([dbus_wrapper.py]) *)

Module Dbus.

(** *** What the NetworkManager service holds *)

(** The [connection] section of a profile's settings; a field is [None]
    when the dictionary has no such key. *)
Record ConnectionSection : Type := {
  connection_id : option string;      (* ["connection"]["id"] *)
  connection_type : option string     (* ["connection"]["type"] *)
}.

(** The [vpn] section; [vpn_data] is the string dictionary under
    ["data"], whose ["dev"] entry names the tunnel interface. *)
Record VpnSection : Type := {
  vpn_data : option (gmap string string)
}.

(** Result of [GetSettings()] on a profile. *)
Record Settings : Type := {
  connection : option ConnectionSection;
  vpn : option VpnSection
}.

(** Result of [GetAll("...Connection.Active")] on an active connection. *)
Record ActiveConnProps : Type := {
  ac_Id : string;
  ac_Type : string;
  ac_State : Z;
  ac_Default : bool;
  ac_Default6 : bool;
  ac_Connection : string;             (* path of the profile *)
  ac_Devices : list string            (* paths of the bound devices *)
}.

(** Result of [GetAll("...NetworkManager.Device")] on a device. *)
Record DeviceProps : Type := {
  AvailableConnections : list string
}.

(** One snapshot of the service, as the remote calls see it.  Every
    call can raise. *)
Record Bus : Type := {
  ListConnections : result (list string);
  ActiveConnections : result (list string);
  AllDevices : result (list string);
  GetSettings : string -> result Settings;
  GetAll_Active : string -> result ActiveConnProps;
  GetAll_Device : string -> result DeviceProps
}.

(** [self]: the bus and the name of the virtual device. *)
Record DbusWrapper : Type := {
  bus : Bus;
  virtual_device_name : string
}.

(** *** Reads *)

Definition get_all_conns (self : DbusWrapper) : result (list string) :=
  ListConnections (bus self).

Definition get_all_active_conns (self : DbusWrapper) : result (list string) :=
  ActiveConnections (bus self).

Definition get_all_conn_settings (self : DbusWrapper) (conn : string)
  : result Settings :=
  GetSettings (bus self) conn.

Definition get_active_conn_props (self : DbusWrapper) (active_conn : string)
  : result ActiveConnProps :=
  GetAll_Active (bus self) active_conn.

(** *** [get_connection_device_path] *)

Fixpoint get_connection_device_path_loop (self : DbusWrapper)
    (connection_settings_path : string) (devices : list string)
  : result (option string) :=
  match devices with
  | [] => Ok None
  | device :: rest =>
      devices_props ← GetAll_Device (bus self) device;
      let device_available_conns := AvailableConnections devices_props in
      if (0 <? length device_available_conns)%nat then
        conn_settings_path ← pop device_available_conns;
        if bool_decide (connection_settings_path = conn_settings_path)
        then Ok (Some device)
        else get_connection_device_path_loop self connection_settings_path rest
      else get_connection_device_path_loop self connection_settings_path rest
  end.

Definition get_connection_device_path (self : DbusWrapper)
    (connection_settings_path : string) : result (option string) :=
  devices ← AllDevices (bus self);
  get_connection_device_path_loop self connection_settings_path devices.

(** *** [get_active_connection] *)

(** An optional argument is used when it is given and not empty
    ([if get_by_id and ...]). *)
Definition given (arg : option string) : bool :=
  match arg with
  | Some s => truthy s
  | None => false
  end.

Definition str_eq (s : string) (arg : option string) : bool :=
  bool_decide (Some s = arg).

Fixpoint get_active_connection_loop (self : DbusWrapper)
    (get_by_id get_by_settings_path get_by_device_path : option string)
    (active_connections : list string) : result (option string) :=
  match active_connections with
  | [] => Ok None
  | active_conn :: rest =>
      match get_active_conn_props self active_conn with
      | Raise e =>
          if isinstance e TypeError then Ok None
          else if isinstance e DBusException then
            get_active_connection_loop self get_by_id get_by_settings_path
              get_by_device_path rest
          else Raise e
      | Ok active_conn_props =>
          if given get_by_id && str_eq (ac_Id active_conn_props) get_by_id
          then Ok (Some active_conn)
          else if given get_by_settings_path
                  && str_eq (ac_Connection active_conn_props)
                       get_by_settings_path
          then Ok (Some active_conn)
          else
            by_device ←
              (if given get_by_device_path then
                 device ← pop (ac_Devices active_conn_props);
                 Ok (str_eq device get_by_device_path)
               else Ok false);
            if (by_device : bool) then Ok (Some active_conn)
            else if ac_Default active_conn_props
                    || (ac_Default active_conn_props
                        && ac_Default6 active_conn_props)
            then Ok (Some active_conn)
            else
              get_active_connection_loop self get_by_id get_by_settings_path
                get_by_device_path rest
      end
  end.

Definition get_active_connection (self : DbusWrapper)
    (get_by_id get_by_settings_path get_by_device_path : option string)
  : result (option string) :=
  active_connections ← get_all_active_conns self;
  get_active_connection_loop self get_by_id get_by_settings_path
    get_by_device_path active_connections.

(** The four ways the specification selects an active connection, and
    the call each one stands for. *)
Inductive Selector : Type :=
| ById (v : string)
| ByProfilePath (v : string)
| ByDevicePath (v : string)
| ByDefaultRoute.

Definition select (self : DbusWrapper) (sel : Selector)
  : result (option string) :=
  match sel with
  | ById v => get_active_connection self (Some v) None None
  | ByProfilePath v => get_active_connection self None (Some v) None
  | ByDevicePath v => get_active_connection self None None (Some v)
  | ByDefaultRoute => get_active_connection self None None None
  end.

(** *** [search_for_connection] *)

(** The value the local [dev_name] ends with: [None], the (empty)
    ["data"] dictionary itself, or the string under ["dev"]. *)
Inductive DevName : Type :=
| DevNone
| DevDict (d : gmap string string)
| DevStr (s : string).

Definition dev_name_of (all_connection_properties : Settings) : DevName :=
  match vpn all_connection_properties with
  | None => DevNone                       (* "vpn" not in the settings *)
  | Some vpn_section =>
      match vpn_data vpn_section with     (* .get("data") *)
      | None => DevNone
      | Some data =>
          if bool_decide (data = ∅) then DevDict data   (* falsy: kept *)
          else match data !! "dev" with                  (* .get("dev") *)
               | Some dev => DevStr dev
               | None => DevNone
               end
      end
  end.

(** [interface_name == dev_name] *)
Definition iface_eq (interface_name : option string) (dev_name : DevName)
  : bool :=
  match interface_name, dev_name with
  | Some i, DevStr d => bool_decide (i = d)
  | None, DevNone => true
  | _, _ => false
  end.

(** The test of the [if] inside the loop. *)
Definition is_match {L : StrLower} (conn_name : string)
    (interface_name : option string)
    (connection_id : string) (dev_name : DevName) : bool :=
  bool_decide (conn_name = connection_id)
  || (contains (str_lower conn_name) (str_lower connection_id)
      && bool_decide (interface_name <> None)
      && iface_eq interface_name dev_name).

Record SearchFlags : Type := {
  is_active : bool;
  return_settings_path : bool;
  return_device_path : bool;
  return_active_conn_path : bool
}.

(** The dictionary built for the entry that matched. *)
Definition build_return_dict (self : DbusWrapper) (flags : SearchFlags)
    (connection_id iterated_connection : string)
  : result (gmap string (option string)) :=
  let return_dict : gmap string (option string) :=
    {[ "connection_id" := Some connection_id ]} in
  let return_dict :=
    if return_settings_path flags
    then <[ "settings_path" := Some iterated_connection ]> return_dict
    else return_dict in
  return_dict ←
    (if return_device_path flags then
       device_path ← get_connection_device_path self iterated_connection;
       Ok (<[ "device_path" := device_path ]> return_dict)
     else Ok return_dict);
  if return_active_conn_path flags && is_active flags then
    active_conn_path ←
      get_active_connection self None (Some iterated_connection) None;
    Ok (<[ "active_conn_path" := active_conn_path ]> return_dict)
  else Ok return_dict.

(** The profile an entry of the list stands for: itself, or the
    ["Connection"] of the active connection. *)
Definition profile_of (self : DbusWrapper) (flags : SearchFlags)
    (iterated_connection : string) : result string :=
  if is_active flags then
    conn_props ← get_active_conn_props self iterated_connection;
    Ok (ac_Connection conn_props)
  else Ok iterated_connection.

Fixpoint search_for_connection_loop {L : StrLower} (self : DbusWrapper)
    (conn_name : string) (interface_name : option string)
    (flags : SearchFlags) (connection_list : list string)
  : result (gmap string (option string)) :=
  match connection_list with
  | [] => Ok ∅
  | iterated_connection :: rest =>
      iterated_connection ← profile_of self flags iterated_connection;
      all_connection_properties ←
        get_all_conn_settings self iterated_connection;
      connection_section ←
        getitem "connection" (connection all_connection_properties);
      connection_id ← getitem "id" (connection_id connection_section);
      let dev_name := dev_name_of all_connection_properties in
      if is_match conn_name interface_name connection_id dev_name
      then build_return_dict self flags connection_id iterated_connection
      else
        search_for_connection_loop self conn_name interface_name flags rest
  end.

Definition search_for_connection {L : StrLower} (self : DbusWrapper)
    (conn_name : string) (interface_name : option string)
    (flags : SearchFlags) : result (gmap string (option string)) :=
  connection_list ←
    (if is_active flags then get_all_active_conns self
     else get_all_conns self);
  search_for_connection_loop self conn_name interface_name flags
    connection_list.

(** *** [check_active_vpn_conn] *)

Definition check_active_vpn_conn (self : DbusWrapper) (active_conn : string)
  : result (bool * option Settings) :=
  match get_active_conn_props self active_conn with
  | Raise e =>
      if isinstance e DBusException then Ok (false, None) else Raise e
  | Ok active_conn_props =>
      if bool_decide (ac_Type active_conn_props = "vpn")
         && (ac_State active_conn_props =? 2)
      then
        all_settings ←
          get_all_conn_settings self (ac_Connection active_conn_props);
        Ok (true, Some all_settings)
      else Ok (false, None)
  end.

(** *** [is_protonvpn_being_prepared] *)

(** [vpn_all_settings["vpn"]["data"]["dev"]] *)
Definition vpn_data_dev (vpn_all_settings : Settings) : result string :=
  vpn_section ← getitem "vpn" (vpn vpn_all_settings);
  data ← getitem "data" (vpn_data vpn_section);
  getitem "dev" (data !! "dev").

Definition ConnInfo : Type := bool * option Z * option string.

Fixpoint is_protonvpn_being_prepared_loop (self : DbusWrapper)
    (protonvpn_conn_info : ConnInfo) (all_active_conns : list string)
  : result ConnInfo :=
  match all_active_conns with
  | [] => Ok protonvpn_conn_info
  | active_conn :: rest =>
      active_conn_props ← get_active_conn_props self active_conn;
      vpn_all_settings ←
        get_all_conn_settings self (ac_Connection active_conn_props);
      found ←
        (if bool_decide (ac_Type active_conn_props = "vpn") then
           dev ← vpn_data_dev vpn_all_settings;
           Ok (bool_decide (dev = virtual_device_name self))
         else Ok false);
      is_protonvpn_being_prepared_loop self
        (if (found : bool)
         then (true, Some (ac_State active_conn_props), Some active_conn)
         else protonvpn_conn_info)
        rest
  end.

Definition is_protonvpn_being_prepared (self : DbusWrapper)
  : result ConnInfo :=
  all_active_conns ← get_all_active_conns self;
  is_protonvpn_being_prepared_loop self (false, None, None)
    all_active_conns.

End Dbus.

(** ** The lifecycle controller ([connection.py]) *)

Module Conn.

(** Modelled from the spec: the [enums] module is not among the
    sources.  These are the three actions the controller passes to the
    two actuators ([manage(action in {ENABLE, DISABLE})] and
    [manage(action in {PRE_CONNECTION, DISABLE}, server_ip)]). *)
Inductive KillSwitchActionEnum : Type :=
| ENABLE
| DISABLE
| PRE_CONNECTION.

(** Modelled from the spec: the kill-switch mode of the user settings,
    "hard", "soft", or neither. *)
Inductive KillswitchStatusEnum : Type :=
| DISABLED
| HARD
| SOFT.

#[global] Instance KillSwitchActionEnum_eq_dec : EqDecision KillSwitchActionEnum.
Proof. solve_decision. Defined.

#[global] Instance KillswitchStatusEnum_eq_dec : EqDecision KillswitchStatusEnum.
Proof. solve_decision. Defined.

(** Values found in [user_data]. *)
Inductive PyVal : Type :=
| PyStr (s : string)
| PyInt (n : Z)
| PyList (l : list string).

#[global] Instance PyVal_eq_dec : EqDecision PyVal.
Proof. solve_decision. Defined.

(** [user_data]; a field is [None] when [.get] finds no such key. *)
Record UserData : Type := {
  dns : option (gmap string PyVal);
  credentials : option (gmap string PyVal)
}.

(** The keyword arguments of [adapter.vpn_add_connection]. *)
Record AddConnectionKwargs : Type := {
  kw_username : option PyVal;
  kw_password : option PyVal;
  kw_domain : option string;
  kw_servername : option string;
  kw_dns_status : option PyVal;
  kw_custom_dns : option PyVal
}.

#[global] Instance AddConnectionKwargs_eq_dec : EqDecision AddConnectionKwargs.
Proof. solve_decision. Defined.

(** The calls the controller makes on its collaborators. *)
Inductive Call : Type :=
| ipv6_lp_manage (action : KillSwitchActionEnum)
| killswitch_manage (action : KillSwitchActionEnum) (server_ip : option string)
| stop_daemon_reconnector
| vpn_add_connection (kwargs : AddConnectionKwargs)
| vpn_connect
| vpn_remove_connection.

#[global] Instance Call_eq_dec : EqDecision Call.
Proof. solve_decision. Defined.

(** The collaborators: what a call returns or raises, given the calls
    made before it. *)
Definition Env : Type := list Call -> Call -> result unit.

(** A method of the controller: from the collaborators and the calls
    made so far, the calls it makes (in order) and its outcome. *)
Definition M (A : Type) : Type := Env -> list Call -> list Call * result A.

#[global] Instance M_ret : MRet M := fun A a _ _ => ([], Ok a).
#[global] Instance M_bind : MBind M := fun A B f m env history =>
  match m env history with
  | (calls, Ok a) =>
      let '(calls', r) := f a env (history ++ calls) in (calls ++ calls', r)
  | (calls, Raise e) => (calls, Raise e)
  end.

Definition perform (c : Call) : M unit :=
  fun env history => ([c], env history c).

(** A pure step that may raise. *)
Definition lift {A} (r : result A) : M A := fun _ _ => ([], r).

(** [try: body  except ...: handler(e)] *)
Definition try_except {A} (body : M A) (handler : exn -> M A) : M A :=
  fun env history =>
    match body env history with
    | (calls, Ok a) => (calls, Ok a)
    | (calls, Raise e) =>
        let '(calls', r) := handler e env (history ++ calls) in
        (calls ++ calls', r)
    end.

Definition raise {A} (e : exn) : M A := lift (Raise e).

(** [self.protonvpn_user.settings.killswitch] and
    [self.ipv6_lp.enable_ipv6_leak_protection]; [protonvpn_user] is
    [None] until a caller sets it. *)
Record Connection : Type := {
  enable_ipv6_leak_protection : bool;
  protonvpn_user : option KillswitchStatusEnum
}.

Definition settings_killswitch (self : Connection) : result KillswitchStatusEnum :=
  match protonvpn_user self with
  | Some ks => Ok ks
  | None =>
      Raise (Raised AttributeError
               "'NoneType' object has no attribute 'settings'")
  end.

(** [d.get(k)] where [d] itself came from a [.get]. *)
Definition get_of {A} (d : option (gmap string A)) (k : string)
  : result (option A) :=
  match d with
  | Some m => Ok (m !! k)
  | None =>
      Raise (Raised AttributeError
               "'NoneType' object has no attribute 'get'")
  end.

Definition build_kwargs (server_data : gmap string string)
    (user_data : UserData) : result AddConnectionKwargs :=
  let domain := server_data !! "domain" in
  let servername := server_data !! "servername" in
  username ← get_of (credentials user_data) "ovpn_username";
  password ← get_of (credentials user_data) "ovpn_password";
  dns_status ← get_of (dns user_data) "dns_status";
  custom_dns ← get_of (dns user_data) "dns_ip_list";
  Ok {| kw_username := username; kw_password := password;
        kw_domain := domain; kw_servername := servername;
        kw_dns_status := dns_status; kw_custom_dns := custom_dns |}.

Definition _pre_setup_connection (self : Connection)
    (entry_ip : option string) : M unit :=
  (if enable_ipv6_leak_protection self
   then perform (ipv6_lp_manage ENABLE) else mret tt);;
  killswitch ← lift (settings_killswitch self);
  if bool_decide (killswitch = HARD)
  then perform (killswitch_manage PRE_CONNECTION entry_ip)
  else mret tt.

Definition _post_disconnect (self : Connection) : M unit :=
  perform stop_daemon_reconnector;;
  perform (ipv6_lp_manage DISABLE);;
  killswitch ← lift (settings_killswitch self);
  if bool_decide (killswitch = SOFT)
  then perform (killswitch_manage DISABLE None)
  else mret tt.

Definition setup_connection (self : Connection)
    (server_data : gmap string string) (user_data : UserData) : M unit :=
  let server_entry_ip := server_data !! "server_entry_ip" in
  kwargs ← lift (build_kwargs server_data user_data);
  _pre_setup_connection self server_entry_ip;;
  perform (vpn_add_connection kwargs).

Definition connect (self : Connection) : M unit :=
  perform vpn_connect.

Definition unable_to_disconnect (e : exn) : exn :=
  Raised ConnectionNotFound ("Unable to disconnect: " +:+ exn_str e).

Definition unknown_error (e : exn) : exn :=
  Raised Exception_ ("Unknown error occured: " +:+ exn_str e).

Definition disconnect (self : Connection) : M unit :=
  try_except (perform vpn_remove_connection)
    (fun e =>
       if isinstance e ConnectionNotFound
       then raise (unable_to_disconnect e)
       else if isinstance e RemoveConnectionFinishError
               || isinstance e StopConnectionFinishError
       then raise (unable_to_disconnect e)
       else if isinstance e ProtonVPNException || isinstance e Exception_
       then raise (unknown_error e)
       else raise e);;
  _post_disconnect self.

End Conn.

(** ** Views used to state the properties of the wrapper *)

Module DbusView.
Import Dbus.

(** What the service holds for an entry of the list that is searched:
    the path of its profile, the id of the profile, and the profile's
    VPN device name. *)
Record Profile : Type := {
  p_path : string;
  p_id : string;
  p_dev : option string
}.

(** [vpn.data.dev] of the settings, when all three keys are there. *)
Definition device_name (all_connection_properties : Settings)
  : option string :=
  vpn_section ← vpn all_connection_properties;
  data ← vpn_data vpn_section;
  data !! "dev".

(** The profile of an entry, read from the service itself.  Among the
    profiles the entry is the path of the profile.  Among the active
    connections the entry is the path of an active connection, and the
    profile is the one its ["Connection"] property names. *)
Definition entry_profile (self : DbusWrapper) (flags : SearchFlags)
    (entry : string) : result Profile :=
  path ←
    (if is_active flags then
       match GetAll_Active (bus self) entry with
       | Ok active => Ok (ac_Connection active)
       | Raise e => Raise e
       end
     else Ok entry);
  match GetSettings (bus self) path with
  | Raise e => Raise e
  | Ok settings =>
      match connection settings with
      | None => Raise (Raised KeyError "'connection'")
      | Some section =>
          match connection_id section with
          | None => Raise (Raised KeyError "'id'")
          | Some id =>
              Ok {| p_path := path; p_id := id;
                    p_dev := device_name settings |}
          end
      end
  end.

(** The matching rule in the words of the specification. *)
Definition exact_match (name : string) (p : Profile) : Prop :=
  name = p_id p.

Definition is_substring (a b : string) : Prop :=
  exists before after, b = before +:+ a +:+ after.

Definition fuzzy_match {L : StrLower} (name : string)
    (interface_name : option string) (p : Profile) : Prop :=
  is_substring (str_lower name) (str_lower (p_id p))
  /\ exists iface, interface_name = Some iface /\ p_dev p = Some iface.

Definition satisfies {L : StrLower} (name : string)
    (interface_name : option string) (p : Profile) : Prop :=
  exact_match name p \/ fuzzy_match name interface_name p.

(** What one iteration of [is_protonvpn_being_prepared] reads of an
    active connection. *)
Record ActiveInfo : Type := {
  ai_path : string;
  ai_state : Z;
  ai_found : bool      (* type is vpn and the device is the virtual one *)
}.

Definition active_info (self : DbusWrapper) (active_conn : string)
  : result ActiveInfo :=
  active_conn_props ← get_active_conn_props self active_conn;
  vpn_all_settings ←
    get_all_conn_settings self (ac_Connection active_conn_props);
  found ←
    (if bool_decide (ac_Type active_conn_props = "vpn") then
       dev ← vpn_data_dev vpn_all_settings;
       Ok (bool_decide (dev = virtual_device_name self))
     else Ok false);
  Ok {| ai_path := active_conn; ai_state := ac_State active_conn_props;
        ai_found := found |}.

(** What [get_connection_device_path] reads of a device: its path and
    its available connections. *)
Definition device_entry (self : DbusWrapper) (device : string)
  : result (string * list string) :=
  devices_props ← GetAll_Device (bus self) device;
  Ok (device, AvailableConnections devices_props).

End DbusView.

(** ** A concrete host, used to run the definitions *)

Module Scenario.
Import Dbus Conn.

Definition no_such_object {A} : result A :=
  Raise (Raised DBusException "No such object").

Definition wired_settings : Settings :=
  {| connection := Some {| connection_id := Some "Wired connection 1";
                           connection_type := Some "802-3-ethernet" |};
     vpn := None |}.

Definition vpn_settings (id : string) : Settings :=
  {| connection := Some {| connection_id := Some id;
                           connection_type := Some "vpn" |};
     vpn := Some {| vpn_data := Some {[ "dev" := "proton0" ]} |} |}.

Definition nm_bus : Bus :=
  {| ListConnections := Ok ["/Settings/1"; "/Settings/2"; "/Settings/3"];
     ActiveConnections := Ok ["/Active/1"; "/Active/2"; "/Active/3"];
     AllDevices := Ok ["/Devices/1"; "/Devices/3"; "/Devices/2"];
     GetSettings := fun path =>
       if bool_decide (path = "/Settings/1") then Ok wired_settings
       else if bool_decide (path = "/Settings/2") then
         Ok (vpn_settings "ProtonVPN")
       else if bool_decide (path = "/Settings/3") then
         Ok (vpn_settings "protonvpn")
       else no_such_object;
     GetAll_Active := fun path =>
       if bool_decide (path = "/Active/1") then
         Ok {| ac_Id := "Wired connection 1"; ac_Type := "802-3-ethernet";
               ac_State := 2; ac_Default := true; ac_Default6 := false;
               ac_Connection := "/Settings/1";
               ac_Devices := ["/Devices/1"] |}
       else if bool_decide (path = "/Active/2") then
         Ok {| ac_Id := "ProtonVPN"; ac_Type := "vpn";
               ac_State := 1; ac_Default := false; ac_Default6 := false;
               ac_Connection := "/Settings/2";
               ac_Devices := ["/Devices/4"] |}
       else if bool_decide (path = "/Active/3") then
         Ok {| ac_Id := "protonvpn"; ac_Type := "vpn";
               ac_State := 2; ac_Default := false; ac_Default6 := false;
               ac_Connection := "/Settings/3";
               ac_Devices := ["/Devices/5"] |}
       else if bool_decide (path = "/Active/9") then
         (* its profile has been deleted meanwhile *)
         Ok {| ac_Id := "ProtonVPN"; ac_Type := "vpn";
               ac_State := 2; ac_Default := false; ac_Default6 := false;
               ac_Connection := "/Settings/9";
               ac_Devices := ["/Devices/4"] |}
       else no_such_object;
     GetAll_Device := fun path =>
       if bool_decide (path = "/Devices/1") then
         Ok {| AvailableConnections := ["/Settings/2"; "/Settings/1"] |}
       else if bool_decide (path = "/Devices/2") then
         Ok {| AvailableConnections := ["/Settings/1"; "/Settings/2"] |}
       else if bool_decide (path = "/Devices/3") then
         Ok {| AvailableConnections := [] |}
       else no_such_object |}.

Definition nm : DbusWrapper :=
  {| bus := nm_bus; virtual_device_name := "proton0" |}.

(** The same host with no active connection. *)
Definition offline : DbusWrapper :=
  {| bus := {| ListConnections := ListConnections nm_bus;
               ActiveConnections := Ok [];
               AllDevices := AllDevices nm_bus;
               GetSettings := GetSettings nm_bus;
               GetAll_Active := GetAll_Active nm_bus;
               GetAll_Device := GetAll_Device nm_bus |};
     virtual_device_name := "proton0" |}.

Definition profiles_only : SearchFlags :=
  {| is_active := false; return_settings_path := true;
     return_device_path := true; return_active_conn_path := false |}.

(** A search among the active connections, asking for the profile's
    path. *)
Definition active_profiles : SearchFlags :=
  {| is_active := true; return_settings_path := true;
     return_device_path := false; return_active_conn_path := false |}.

(** Collaborators that never raise. *)
Definition env_ok : Env := fun _ _ => Ok tt.

(** Collaborators whose removal fails while finishing. *)
Definition env_finish_error : Env := fun _ call =>
  if bool_decide (call = vpn_remove_connection)
  then Raise (Raised RemoveConnectionFinishError "timed out")
  else Ok tt.

Definition hard_user : Connection :=
  {| enable_ipv6_leak_protection := true; protonvpn_user := Some HARD |}.

Definition soft_user : Connection :=
  {| enable_ipv6_leak_protection := true; protonvpn_user := Some SOFT |}.

Definition server : gmap string string :=
  {[ "domain" := "node-ch-01.protonvpn.net"; "servername" := "CH#1";
     "server_entry_ip" := "185.159.157.1" ]}.

Definition user : UserData :=
  {| dns := Some {[ "dns_status" := PyInt 1;
                    "dns_ip_list" := PyList [] ]};
     credentials := Some {[ "ovpn_username" := PyStr "user";
                            "ovpn_password" := PyStr "secret" ]} |}.

End Scenario.

(** ** The rest of the wrapper: interfaces and activation *)

Module DbusInterfaces.
Import Dbus.

(** What [get_vpn_interface] returns: the empty tuple, the interface, or
    the interface with the settings. *)
Inductive VpnInterface (Iface : Type) : Type :=
| NoInterface
| Interface (iface : Iface)
| InterfaceAndSettings (iface : Iface) (all_settings : Settings).
Arguments NoInterface {Iface}.
Arguments Interface {Iface} iface.
Arguments InterfaceAndSettings {Iface} iface all_settings.

Section GetVpnInterface.
Context {Iface : Type}.

(** [get_all_conn_settings_interface]: the proxy of a profile, or the
    error of [bus.get_object]. *)
Variable get_all_conn_settings_interface : string -> result Iface.

(** The body of the first [try] of the loop. *)
Definition read_connection (self : DbusWrapper) (connection : string)
  : result (Iface * Settings) :=
  iface ← get_all_conn_settings_interface connection;
  all_settings ← get_all_conn_settings self connection;
  Ok (iface, all_settings).

(** [all_settings["connection"]["id"]], evaluated for the message of the
    [KeyError] handler. *)
Definition connection_id_of (all_settings : Settings) : result string :=
  connection_section ← getitem "connection" (connection all_settings);
  getitem "id" (connection_id connection_section).

Fixpoint get_vpn_interface_loop (self : DbusWrapper)
    (return_properties : bool) (connections : list string)
  : result (VpnInterface Iface) :=
  match connections with
  | [] => Ok NoInterface
  | connection :: rest =>
      match read_connection self connection with
      | Raise e =>
          if isinstance e DBusException
          then get_vpn_interface_loop self return_properties rest
          else Raise e
      | Ok (iface, all_settings) =>
          connection_section ←
            getitem "connection" (Dbus.connection all_settings);
          type ← getitem "type" (connection_type connection_section);
          if bool_decide (type = "vpn") then
            match vpn_data_dev all_settings with
            | Raise e =>
                if isinstance e KeyError then
                  connection_id_of all_settings;;
                  get_vpn_interface_loop self return_properties rest
                else if isinstance e Exception_ then
                  get_vpn_interface_loop self return_properties rest
                else Raise e
            | Ok vpn_virtual_device =>
                if bool_decide (vpn_virtual_device = virtual_device_name self)
                then
                  Ok (if return_properties
                      then InterfaceAndSettings iface all_settings
                      else Interface iface)
                else get_vpn_interface_loop self return_properties rest
            end
          else get_vpn_interface_loop self return_properties rest
      end
  end.

(** The first [except] applies: the read raised a [DBusException]. *)
Definition dbus_unreadable (self : DbusWrapper) (connection : string)
  : bool :=
  match read_connection self connection with
  | Raise e => isinstance e DBusException
  | Ok _ => false
  end.

Definition get_vpn_interface (self : DbusWrapper) (return_properties : bool)
  : result (VpnInterface Iface) :=
  connections ← get_all_conns self;
  get_vpn_interface_loop self return_properties connections.

End GetVpnInterface.

(** [activate_connection]; [ActivateConnection] is the method of the
    NetworkManager interface (with the error of getting that interface). *)
Definition activate_connection
    (ActivateConnection : string -> string -> string -> result string)
    (connection_settings_path device_path : string)
    (specific_object : option string) : result (option string) :=
  active_conn_path ←
    ActivateConnection connection_settings_path device_path
      (match specific_object with
       | Some object => if truthy object then object else "/"
       | None => "/"
       end);
  Ok (if truthy active_conn_path then Some active_conn_path else None).

End DbusInterfaces.

(** ** Cases of one iteration of [get_active_connection] *)

Module ActiveCases.
Import Dbus.

(** One of the three tests on the given arguments holds. *)
Definition selected
    (get_by_id get_by_settings_path get_by_device_path : option string)
    (active_conn_props : ActiveConnProps) : Prop :=
  (given get_by_id = true /\ Some (ac_Id active_conn_props) = get_by_id)
  \/ (given get_by_settings_path = true
      /\ Some (ac_Connection active_conn_props) = get_by_settings_path)
  \/ (given get_by_device_path = true
      /\ last (ac_Devices active_conn_props) = get_by_device_path).

(** The entry is returned: a test holds, or it carries the IPv4 default
    route (and has a device to pop when a device path is given). *)
Definition accepted
    (get_by_id get_by_settings_path get_by_device_path : option string)
    (active_conn_props : ActiveConnProps) : Prop :=
  selected get_by_id get_by_settings_path get_by_device_path
    active_conn_props
  \/ (ac_Default active_conn_props = true
      /\ (given get_by_device_path = true ->
          ac_Devices active_conn_props <> [])).

(** The loop goes on to the next entry: the read raised a
    [DBusException], or no test holds and there is no IPv4 default
    route. *)
Definition passed_over (self : DbusWrapper)
    (get_by_id get_by_settings_path get_by_device_path : option string)
    (active_conn : string) : Prop :=
  (exists e,
      get_active_conn_props self active_conn = Raise e
      /\ isinstance e TypeError = false
      /\ isinstance e DBusException = true)
  \/ (exists active_conn_props,
        get_active_conn_props self active_conn = Ok active_conn_props
        /\ ~ selected get_by_id get_by_settings_path get_by_device_path
               active_conn_props
        /\ ac_Default active_conn_props = false
        /\ (given get_by_device_path = true ->
            ac_Devices active_conn_props <> [])).

End ActiveCases.

(** ** More hosts *)

Module Hosts.
Import Dbus Conn Scenario.

(** The host of [Scenario] with a stale profile list: "/Settings/9" has
    been deleted, "/Settings/4" is a VPN profile of another plugin, with
    no [data] under [vpn]. *)
Definition foreign_vpn_settings : Settings :=
  {| connection := Some {| connection_id := Some "Office VPN";
                           connection_type := Some "vpn" |};
     vpn := Some {| vpn_data := None |} |}.

Definition stale : DbusWrapper :=
  {| bus := {| ListConnections :=
                 Ok ["/Settings/9"; "/Settings/4"; "/Settings/2"];
               ActiveConnections := ActiveConnections nm_bus;
               AllDevices := AllDevices nm_bus;
               GetSettings := fun path =>
                 if bool_decide (path = "/Settings/4")
                 then Ok foreign_vpn_settings
                 else GetSettings nm_bus path;
               GetAll_Active := GetAll_Active nm_bus;
               GetAll_Device := GetAll_Device nm_bus |};
     virtual_device_name := "proton0" |}.

(** The host of [Scenario] seen by a wrapper that looks for another
    virtual device. *)
Definition other_device : DbusWrapper :=
  {| bus := nm_bus; virtual_device_name := "tun0" |}.

(** The host [stale] with the given list of active connections.
    Reading "/Active/0" raises a [TypeError]; "/Active/4" is the active
    connection of the foreign VPN profile; "/Active/5" is an active
    connection without a device. *)
Definition with_active (active_connections : list string) : DbusWrapper :=
  {| bus := {| ListConnections := ListConnections nm_bus;
               ActiveConnections := Ok active_connections;
               AllDevices := AllDevices nm_bus;
               GetSettings := GetSettings (bus stale);
               GetAll_Active := fun path =>
                 if bool_decide (path = "/Active/0") then
                   Raise (Raised TypeError "'NoneType' object")
                 else if bool_decide (path = "/Active/4") then
                   Ok {| ac_Id := "Office VPN"; ac_Type := "vpn";
                         ac_State := 2; ac_Default := false;
                         ac_Default6 := false;
                         ac_Connection := "/Settings/4";
                         ac_Devices := ["/Devices/6"] |}
                 else if bool_decide (path = "/Active/5") then
                   Ok {| ac_Id := "lo"; ac_Type := "loopback";
                         ac_State := 2; ac_Default := false;
                         ac_Default6 := true;
                         ac_Connection := "/Settings/5";
                         ac_Devices := [] |}
                 else GetAll_Active nm_bus path;
               GetAll_Device := GetAll_Device nm_bus |};
     virtual_device_name := "proton0" |}.

(** The host [stale] with the given list of profiles. *)
Definition with_profiles (connections : list string) : DbusWrapper :=
  {| bus := {| ListConnections := Ok connections;
               ActiveConnections := ActiveConnections nm_bus;
               AllDevices := AllDevices nm_bus;
               GetSettings := GetSettings (bus stale);
               GetAll_Active := GetAll_Active nm_bus;
               GetAll_Device := GetAll_Device nm_bus |};
     virtual_device_name := "proton0" |}.

(** The host of [Scenario] with the given list of devices;
    "/Devices/7" cannot be read. *)
Definition with_devices (devices : list string) : DbusWrapper :=
  {| bus := {| ListConnections := ListConnections nm_bus;
               ActiveConnections := ActiveConnections nm_bus;
               AllDevices := Ok devices;
               GetSettings := GetSettings nm_bus;
               GetAll_Active := GetAll_Active nm_bus;
               GetAll_Device := GetAll_Device nm_bus |};
     virtual_device_name := "proton0" |}.

(** Collaborators whose reconnect daemon cannot be stopped. *)
Definition env_daemon_error : Env := fun _ call =>
  if bool_decide (call = stop_daemon_reconnector)
  then Raise (Raised (OtherException "CalledProcessError") "systemctl")
  else Ok tt.

(** A controller whose user has not been set. *)
Definition no_user : Connection :=
  {| enable_ipv6_leak_protection := true; protonvpn_user := None |}.

(** A NetworkManager that activates every profile as "/Active/7". *)
Definition activate_ok (connection device specific_object : string)
  : result string :=
  Ok "/Active/7".

(** A search among the active connections that asks for every path but
    the device. *)
Definition active_paths : SearchFlags :=
  {| is_active := true; return_settings_path := true;
     return_device_path := false; return_active_conn_path := true |}.

(** The proxy of a profile is its path; getting it never fails. *)
Definition path_interface (connection : string) : result string :=
  Ok connection.

End Hosts.

(** * Properties *)

(** ** Strings *)

Section StringFacts.
Lemma prefix_spec a b : String.prefix a b = true <-> exists s, b = a +:+ s.
Proof.
  revert b. induction a as [| c a IH]; intros b.
  - split; [intros _; by exists b | intros _; by destruct b].
  - destruct b as [| d b]; cbn.
    + split; [done | intros [s [=]]].
    + destruct (Ascii.ascii_dec c d) as [-> | Hne].
      * rewrite IH. split; intros [s Hs]; exists s; [by rewrite Hs | by injection Hs].
      * split; [done | intros [s [= Hcd _]]; done].
Qed.

Lemma contains_spec a b :
  contains a b = true <-> exists p s, b = p +:+ a +:+ s.
Proof.
  induction b as [| d b IH]; cbn [contains].
  - rewrite orb_false_r, prefix_spec. split.
    + intros [s Hs]. by exists "", s.
    + intros [p [s Hs]]. destruct p; [by exists s | done].
  - rewrite orb_true_iff, prefix_spec, IH. split.
    + intros [[s Hs] | [p [s Hs]]].
      * by exists "", s.
      * exists (String d p), s. cbn. by rewrite Hs.
    + intros [[| c p] [s Hs]].
      * left. by exists s.
      * right. injection Hs as -> ->. by exists p, s.
Qed.
End StringFacts.

(** ** Properties of the D-Bus wrapper *)

Section DbusProperties.
Import Dbus DbusView Scenario.

Lemma mapM_cons_Ok {A B} (f : A -> result B) x l ys :
  mapM f (x :: l) = Ok ys ->
  exists y ys', f x = Ok y /\ mapM f l = Ok ys' /\ ys = y :: ys'.
Proof.
  cbn. destruct (f x) as [y | e]; cbn; [| done].
  destruct (mapM f l) as [ys' | e]; cbn; [| done].
  intros [= <-]. eauto.
Qed.

Lemma mapM_nil_Ok {A B} (f : A -> result B) ys :
  mapM f [] = Ok ys -> ys = [].
Proof. by intros [= <-]. Qed.

Lemma iface_eq_device_name iface all_connection_properties :
  iface_eq (Some iface) (dev_name_of all_connection_properties)
  = bool_decide (device_name all_connection_properties = Some iface).
Proof.
  unfold dev_name_of, device_name.
  destruct (vpn all_connection_properties) as [[[data |]] |]; cbn; try done.
  case_bool_decide as Hempty.
  - subst data. by rewrite lookup_empty.
  - destruct (data !! "dev") as [dev |]; cbn; [| done].
    apply bool_decide_ext. split; congruence.
Qed.

Lemma mapM_lookup_Ok {A B} (f : A -> result B) l ys i x y :
  mapM f l = Ok ys -> l !! i = Some x -> ys !! i = Some y -> f x = Ok y.
Proof.
  revert ys i. induction l as [| a l IH]; intros ys i Hmap Hx Hy; [done |].
  apply mapM_cons_Ok in Hmap as (b & ys' & Hb & Hys & ->).
  destruct i as [| i]; cbn in Hx, Hy.
  - by injection Hx as <-; injection Hy as <-.
  - eauto.
Qed.

(** The view of an entry is what the loop reads of it. *)
Lemma entry_profile_reads self flags entry :
  entry_profile self flags entry
  = (path ← profile_of self flags entry;
     all_connection_properties ← get_all_conn_settings self path;
     connection_section ←
       getitem "connection" (connection all_connection_properties);
     id ← getitem "id" (connection_id connection_section);
     Ok {| p_path := path; p_id := id;
           p_dev := device_name all_connection_properties |}).
Proof.
  unfold entry_profile, profile_of, get_active_conn_props,
    get_all_conn_settings.
  destruct (is_active flags); cbn.
  - destruct (GetAll_Active (bus self) entry) as [active | e]; cbn; [| done].
    destruct (GetSettings (bus self) (ac_Connection active))
      as [settings | e]; cbn; [| done].
    by destruct (connection settings) as [[[id |] ty] |].
  - destruct (GetSettings (bus self) entry) as [settings | e]; cbn; [| done].
    by destruct (connection settings) as [[[id |] ty] |].
Qed.

(** A profile that was read, in terms of the reads of the service. *)
Lemma entry_profile_Ok self flags entry p :
  entry_profile self flags entry = Ok p ->
  exists settings section,
    (if is_active flags
     then exists active,
            GetAll_Active (bus self) entry = Ok active
            /\ ac_Connection active = p_path p
     else entry = p_path p)
    /\ GetSettings (bus self) (p_path p) = Ok settings
    /\ connection settings = Some section
    /\ connection_id section = Some (p_id p)
    /\ device_name settings = p_dev p.
Proof.
  unfold entry_profile.
  destruct (is_active flags); cbn.
  - destruct (GetAll_Active (bus self) entry) as [active | e]; cbn; [| done].
    destruct (GetSettings (bus self) (ac_Connection active))
      as [settings | e] eqn:Hs; cbn; [| done].
    destruct (connection settings) as [[[id |] ty] |] eqn:Hc; try done.
    intros [= <-]. cbn. exists settings, (Build_ConnectionSection (Some id) ty).
    split; [by exists active |]. by rewrite Hs.
  - destruct (GetSettings (bus self) entry) as [settings | e] eqn:Hs; cbn;
      [| done].
    destruct (connection settings) as [[[id |] ty] |] eqn:Hc; try done.
    intros [= <-]. cbn. exists settings, (Build_ConnectionSection (Some id) ty).
    split; [done |]. by rewrite Hs.
Qed.

Lemma is_match_satisfies {L : StrLower}
    name interface_name id all_connection_properties path :
  is_match name interface_name id (dev_name_of all_connection_properties) = true
  <-> satisfies name interface_name
        {| p_path := path; p_id := id;
           p_dev := device_name all_connection_properties |}.
Proof.
  unfold is_match, satisfies, exact_match, fuzzy_match, is_substring. cbn.
  rewrite orb_true_iff, !andb_true_iff, bool_decide_eq_true, contains_spec.
  apply or_iff_compat_l. split.
  - intros [[Hsub Hsome] Heq]. split; [done |].
    destruct interface_name as [iface |]; [| by apply bool_decide_eq_true in Hsome].
    rewrite iface_eq_device_name in Heq. apply bool_decide_eq_true in Heq.
    eauto.
  - intros [Hsub (iface & -> & Hdev)]. split; [split; [done |] |].
    + by apply bool_decide_eq_true.
    + rewrite iface_eq_device_name. by apply bool_decide_eq_true.
Qed.

Lemma search_loop_step {L : StrLower}
    self name interface_name flags entry rest p :
  entry_profile self flags entry = Ok p ->
  (satisfies name interface_name p ->
   search_for_connection_loop self name interface_name flags (entry :: rest)
   = build_return_dict self flags (p_id p) (p_path p))
  /\ (~ satisfies name interface_name p ->
      search_for_connection_loop self name interface_name flags (entry :: rest)
      = search_for_connection_loop self name interface_name flags rest).
Proof.
  rewrite entry_profile_reads. cbn [search_for_connection_loop].
  destruct (profile_of self flags entry) as [path | e]; cbn; [| done].
  destruct (get_all_conn_settings self path) as [all | e]; cbn; [| done].
  destruct (connection all) as [[[id |] ty] |]; cbn; try done.
  intros [= <-]. cbn.
  pose proof (is_match_satisfies name interface_name id all path) as Hm.
  destruct (is_match name interface_name id (dev_name_of all)).
  - split; [done |]. intros Hn. destruct Hn. by apply Hm.
  - split; [| done]. intros Hs. apply Hm in Hs. done.
Qed.

Lemma search_loop_none {L : StrLower}
    self name interface_name flags entries profiles :
  mapM (entry_profile self flags) entries = Ok profiles ->
  Forall (fun p => ~ satisfies name interface_name p) profiles ->
  search_for_connection_loop self name interface_name flags entries = Ok ∅.
Proof.
  revert profiles. induction entries as [| entry rest IH]; intros profiles Hmap Hall.
  - done.
  - apply mapM_cons_Ok in Hmap as (p & ps & Hp & Hps & ->).
    apply Forall_cons in Hall as [Hp' Hall].
    destruct (search_loop_step self name interface_name flags entry rest p Hp)
      as [_ ->]; eauto.
Qed.

Lemma search_loop_first {L : StrLower}
    self name interface_name flags entries before p after :
  mapM (entry_profile self flags) entries = Ok (before ++ p :: after) ->
  Forall (fun q => ~ satisfies name interface_name q) before ->
  satisfies name interface_name p ->
  search_for_connection_loop self name interface_name flags entries
  = build_return_dict self flags (p_id p) (p_path p).
Proof.
  revert entries.
  induction before as [| q before IH]; intros entries Hmap Hall Hsat.
  - destruct entries as [| entry rest]; [by apply mapM_nil_Ok in Hmap |].
    apply mapM_cons_Ok in Hmap as (p' & ps & Hp & Hps & [= <- <-]).
    by destruct (search_loop_step self name interface_name flags entry rest p Hp)
      as [-> _].
  - destruct entries as [| entry rest]; [by apply mapM_nil_Ok in Hmap |].
    apply mapM_cons_Ok in Hmap as (p' & ps & Hp & Hps & [= <- <-]).
    apply Forall_cons in Hall as [Hq Hall].
    destruct (search_loop_step self name interface_name flags entry rest q Hp)
      as [_ ->]; eauto.
Qed.

Lemma build_return_dict_keys self flags id path d :
  build_return_dict self flags id path = Ok d ->
  d !! "connection_id" = Some (Some id)
  /\ (return_settings_path flags = true ->
      d !! "settings_path" = Some (Some path)).
Proof.
  unfold build_return_dict.
  destruct flags as [act [] [] []]; cbn;
    try destruct (get_connection_device_path self path) as [dev | e]; cbn;
    try destruct act; cbn;
    try destruct (get_active_connection self None (Some path) None)
      as [ac | e']; cbn;
    try done; intros [= <-]; split; try done; by simplify_map_eq.
Qed.

Lemma build_return_dict_plain self flags id path :
  return_device_path flags = false ->
  return_active_conn_path flags = false ->
  build_return_dict self flags id path
  = Ok (if return_settings_path flags
        then <[ "settings_path" := Some path ]>
               {[ "connection_id" := Some id ]}
        else {[ "connection_id" := Some id ]}).
Proof. destruct flags as [act [] [] []]; cbn; by intros. Qed.

(** C4.  Take the list that is searched: the profiles, or the active
    connections, each standing for the profile its ["Connection"]
    property names.  When every entry can be read (its profile has
    settings with an id), [search_for_connection] answers for the first
    profile, in the order of the list, whose id is exactly the name or
    whose lower-cased id contains the lower-cased name while an
    interface name is given and equals the profile's VPN device name:
    it returns the dictionary built for that profile, which holds its
    id (and its path when asked for).  When no profile satisfies either
    rule the result is the empty dictionary.  The profile "ProtonVPN"
    on device "proton0" satisfies the rule for the query ("protonvpn",
    "proton0").  This holds for every string, whatever [str.lower] does
    outside ASCII. *)
Theorem search_for_connection_first_match {L : StrLower}
    self conn_name interface_name flags entries profiles :
  (if is_active flags then ActiveConnections (bus self)
   else ListConnections (bus self)) = Ok entries ->
  mapM (entry_profile self flags) entries = Ok profiles ->
  (forall i entry p,
      entries !! i = Some entry ->
      profiles !! i = Some p ->
      exists settings section,
        (if is_active flags
         then exists active,
                GetAll_Active (bus self) entry = Ok active
                /\ ac_Connection active = p_path p
         else entry = p_path p)
        /\ GetSettings (bus self) (p_path p) = Ok settings
        /\ connection settings = Some section
        /\ connection_id section = Some (p_id p)
        /\ device_name settings = p_dev p)
  /\ (Forall (fun p => ~ satisfies conn_name interface_name p) profiles ->
      search_for_connection self conn_name interface_name flags = Ok ∅)
  /\ (forall before p after,
        profiles = before ++ p :: after ->
        Forall (fun q => ~ satisfies conn_name interface_name q) before ->
        satisfies conn_name interface_name p ->
        search_for_connection self conn_name interface_name flags
        = build_return_dict self flags (p_id p) (p_path p)
        /\ (forall d,
              build_return_dict self flags (p_id p) (p_path p) = Ok d ->
              d !! "connection_id" = Some (Some (p_id p))
              /\ (return_settings_path flags = true ->
                  d !! "settings_path" = Some (Some (p_path p))))
        /\ (return_device_path flags = false ->
            return_active_conn_path flags = false ->
            is_ok (build_return_dict self flags (p_id p) (p_path p))
            = true))
  /\ (forall path,
        satisfies "protonvpn" (Some "proton0")
          {| p_path := path; p_id := "ProtonVPN";
             p_dev := Some "proton0" |}).
Proof.
  intros Hlist Hread.
  unfold search_for_connection, get_all_active_conns, get_all_conns.
  rewrite Hlist. cbn.
  split; [| split; [| split]].
  - intros i entry p Hentry Hp.
    apply (entry_profile_Ok self flags entry p).
    by apply (mapM_lookup_Ok _ entries profiles i).
  - by apply search_loop_none.
  - intros before p after -> Hbefore Hp. split; [| split].
    + by apply (search_loop_first _ _ _ _ _ before p after).
    + apply build_return_dict_keys.
    + intros Hdev Hac. by rewrite build_return_dict_plain.
  - intros path. right. split; [| by exists "proton0"].
    cbn. rewrite !str_lower_ascii by reflexivity. by apply contains_spec.
Qed.

Lemma search_for_connection_first_match_witness :
  search_for_connection (L := ascii_str_lower) nm "protonvpn"
    (Some "proton0") profiles_only
  = Ok {[ "connection_id" := Some "ProtonVPN";
          "settings_path" := Some "/Settings/2";
          "device_path" := Some "/Devices/2" ]}
  /\ search_for_connection (L := ascii_str_lower) nm "protonvpn"
       (Some "proton0") active_profiles
     = Ok {[ "connection_id" := Some "ProtonVPN";
             "settings_path" := Some "/Settings/2" ]}.
Proof.
  split.
  - destruct (search_for_connection_first_match (L := ascii_str_lower)
                nm "protonvpn" (Some "proton0") profiles_only
                ["/Settings/1"; "/Settings/2"; "/Settings/3"]
                [ {| p_path := "/Settings/1"; p_id := "Wired connection 1";
                     p_dev := None |};
                  {| p_path := "/Settings/2"; p_id := "ProtonVPN";
                     p_dev := Some "proton0" |};
                  {| p_path := "/Settings/3"; p_id := "protonvpn";
                     p_dev := Some "proton0" |} ])
      as (_ & _ & Hfirst & Hscenario); [reflexivity | reflexivity |].
    destruct (Hfirst
                [ {| p_path := "/Settings/1"; p_id := "Wired connection 1";
                     p_dev := None |} ]
                {| p_path := "/Settings/2"; p_id := "ProtonVPN";
                   p_dev := Some "proton0" |}
                [ {| p_path := "/Settings/3"; p_id := "protonvpn";
                     p_dev := Some "proton0" |} ]) as (-> & _ & _).
    + reflexivity.
    + apply Forall_cons. split; [| apply Forall_nil_2].
      intros [Hexact | [_ (iface & _ & Hdev)]]; discriminate.
    + apply Hscenario.
    + reflexivity.
  - destruct (search_for_connection_first_match (L := ascii_str_lower)
                nm "protonvpn" (Some "proton0") active_profiles
                ["/Active/1"; "/Active/2"; "/Active/3"]
                [ {| p_path := "/Settings/1"; p_id := "Wired connection 1";
                     p_dev := None |};
                  {| p_path := "/Settings/2"; p_id := "ProtonVPN";
                     p_dev := Some "proton0" |};
                  {| p_path := "/Settings/3"; p_id := "protonvpn";
                     p_dev := Some "proton0" |} ])
      as (_ & _ & Hfirst & Hscenario); [reflexivity | reflexivity |].
    destruct (Hfirst
                [ {| p_path := "/Settings/1"; p_id := "Wired connection 1";
                     p_dev := None |} ]
                {| p_path := "/Settings/2"; p_id := "ProtonVPN";
                   p_dev := Some "proton0" |}
                [ {| p_path := "/Settings/3"; p_id := "protonvpn";
                     p_dev := Some "proton0" |} ]) as (-> & _ & _).
    + reflexivity.
    + apply Forall_cons. split; [| apply Forall_nil_2].
      intros [Hexact | [_ (iface & _ & Hdev)]]; discriminate.
    + apply Hscenario.
    + reflexivity.
Defined.

(** *** [get_active_connection] *)

(** The last branch of the [elif] chain is reached under every
    selector: a first entry that carries the default route (and has a
    device to pop) is returned whatever was asked for. *)
Lemma get_active_connection_first_default
    self get_by_id get_by_settings_path get_by_device_path
    active_conn rest active_conn_props :
  get_all_active_conns self = Ok (active_conn :: rest) ->
  get_active_conn_props self active_conn = Ok active_conn_props ->
  ac_Default active_conn_props = true ->
  ac_Devices active_conn_props <> [] ->
  get_active_connection self get_by_id get_by_settings_path
    get_by_device_path = Ok (Some active_conn).
Proof.
  intros Hlist Hprops Hdefault Hdevices. unfold get_active_connection.
  rewrite Hlist. cbn. rewrite Hprops.
  destruct (given get_by_id && _); [done |].
  destruct (given get_by_settings_path && _); [done |].
  destruct (given get_by_device_path); cbn.
  - unfold pop.
    destruct (last (ac_Devices active_conn_props)) as [device |] eqn:Hlast.
    + cbn. destruct (str_eq device get_by_device_path); [done |].
      by rewrite Hdefault.
    + by apply last_None in Hlast.
  - by rewrite Hdefault.
Qed.

(** C5 (the code departs from it).  On the host of [Scenario] the
    active connections are, in order, the wired one (which carries
    the default route), then "ProtonVPN", then "protonvpn".  Asked for
    the connection with id "ProtonVPN", with profile "/Settings/2", or
    on device "/Devices/4" (all three are the second entry), or for an
    id no connection has, [get_active_connection] returns the wired
    connection: an entry that fails the given selector is still
    returned for its [Default] flag. *)
Theorem get_active_connection_selector_falls_to_default :
  select nm (ById "ProtonVPN") = Ok (Some "/Active/1")
  /\ select nm (ByProfilePath "/Settings/2") = Ok (Some "/Active/1")
  /\ select nm (ByDevicePath "/Devices/4") = Ok (Some "/Active/1")
  /\ select nm (ById "no such id") = Ok (Some "/Active/1")
  /\ (ac_Id <$> get_active_conn_props nm "/Active/1")
     = Ok "Wired connection 1"
  /\ (ac_Id <$> get_active_conn_props nm "/Active/2") = Ok "ProtonVPN".
Proof. repeat split; reflexivity. Qed.

(** C6.  With an empty list of active connections,
    [get_active_connection] returns [None] whatever it is asked for,
    and [is_protonvpn_being_prepared] returns [(False, None, None)];
    neither raises. *)
Theorem empty_active_list_not_found self :
  get_all_active_conns self = Ok [] ->
  (forall sel, select self sel = Ok None)
  /\ (forall get_by_id get_by_settings_path get_by_device_path,
        get_active_connection self get_by_id get_by_settings_path
          get_by_device_path = Ok None)
  /\ is_protonvpn_being_prepared self = Ok (false, None, None).
Proof.
  intros Hempty.
  assert (Hget : forall a b c, get_active_connection self a b c = Ok None).
  { intros a b c. unfold get_active_connection. by rewrite Hempty. }
  split; [| split].
  - intros []; apply Hget.
  - apply Hget.
  - unfold is_protonvpn_being_prepared. by rewrite Hempty.
Qed.

Lemma empty_active_list_not_found_witness :
  select offline ByDefaultRoute = Ok None
  /\ select offline (ById "ProtonVPN") = Ok None
  /\ is_protonvpn_being_prepared offline = Ok (false, None, None).
Proof.
  destruct (empty_active_list_not_found offline) as (Hsel & _ & Hprep).
  - reflexivity.
  - split; [apply Hsel | split; [apply Hsel | apply Hprep]].
Defined.

(** *** [is_protonvpn_being_prepared] *)

Lemma vpn_data_dev_device_name vpn_all_settings dev :
  vpn_data_dev vpn_all_settings = Ok dev
  <-> device_name vpn_all_settings = Some dev.
Proof.
  unfold vpn_data_dev, device_name.
  destruct (vpn vpn_all_settings) as [[[data |]] |]; cbn; try done.
  destruct (data !! "dev"); cbn; split; congruence.
Qed.

(** The fields of [active_info] in terms of what the service holds. *)
Lemma active_info_spec self active_conn i :
  active_info self active_conn = Ok i ->
  ai_path i = active_conn
  /\ exists active_conn_props vpn_all_settings,
      get_active_conn_props self active_conn = Ok active_conn_props
      /\ get_all_conn_settings self (ac_Connection active_conn_props)
         = Ok vpn_all_settings
      /\ ai_state i = ac_State active_conn_props
      /\ (ai_found i = true <->
          ac_Type active_conn_props = "vpn"
          /\ device_name vpn_all_settings
             = Some (virtual_device_name self)).
Proof.
  unfold active_info.
  destruct (get_active_conn_props self active_conn) as [props | e]; cbn;
    [| done].
  destruct (get_all_conn_settings self (ac_Connection props))
    as [settings | e] eqn:Hsettings; cbn; [| done].
  case_bool_decide as Hty; cbn.
  - destruct (vpn_data_dev settings) as [dev | e] eqn:Hdev; cbn; [| done].
    intros [= <-]. cbn. split; [done |]. exists props, settings.
    split; [done | split; [done | split; [done | split]]].
    + intros Hfound%bool_decide_eq_true. subst dev.
      split; [done | by apply vpn_data_dev_device_name].
    + intros [_ Hname]. apply vpn_data_dev_device_name in Hname.
      apply bool_decide_eq_true. congruence.
  - intros [= <-]. cbn. split; [done |]. exists props, settings.
    split; [done | split; [done | split; [done | split]]];
      [done | by intros [? _]].
Qed.

Lemma prepared_loop_step self info active_conn rest i :
  active_info self active_conn = Ok i ->
  is_protonvpn_being_prepared_loop self info (active_conn :: rest)
  = is_protonvpn_being_prepared_loop self
      (if ai_found i then (true, Some (ai_state i), Some (ai_path i))
       else info) rest.
Proof.
  unfold active_info. cbn [is_protonvpn_being_prepared_loop].
  destruct (get_active_conn_props self active_conn) as [props | e]; cbn;
    [| done].
  destruct (get_all_conn_settings self (ac_Connection props))
    as [settings | e]; cbn; [| done].
  destruct (if bool_decide (ac_Type props = "vpn") then _ else _)
    as [found | e]; cbn; [| done].
  by intros [= <-].
Qed.

Lemma prepared_loop_no_match self info entries infos :
  mapM (active_info self) entries = Ok infos ->
  Forall (fun j => ai_found j = false) infos ->
  is_protonvpn_being_prepared_loop self info entries = Ok info.
Proof.
  revert infos. induction entries as [| entry rest IH]; intros infos Hmap Hall.
  - done.
  - apply mapM_cons_Ok in Hmap as (i & is' & Hi & His & ->).
    apply Forall_cons in Hall as [Hi' Hall].
    rewrite (prepared_loop_step _ _ _ _ _ Hi), Hi'. eauto.
Qed.

Lemma prepared_loop_last self info entries before i after :
  mapM (active_info self) entries = Ok (before ++ i :: after) ->
  ai_found i = true ->
  Forall (fun j => ai_found j = false) after ->
  is_protonvpn_being_prepared_loop self info entries
  = Ok (true, Some (ai_state i), Some (ai_path i)).
Proof.
  revert info entries.
  induction before as [| j before IH]; intros info entries Hmap Hi Hafter;
    (destruct entries as [| entry rest]; [by apply mapM_nil_Ok in Hmap |]);
    apply mapM_cons_Ok in Hmap as (i' & is' & Hi' & His & [= <- <-]);
    rewrite (prepared_loop_step _ _ _ _ _ Hi').
  - rewrite Hi. by apply (prepared_loop_no_match _ _ _ after).
  - by apply IH.
Qed.

(** C7.  [is_protonvpn_being_prepared] goes through the whole list of
    active connections.  When every entry can be read, and [i] is the
    last entry that has type vpn and whose VPN device name is the
    virtual device name (whatever comes before it, matches included),
    the result is [(True, state of i, path of i)]. *)
Theorem is_protonvpn_being_prepared_last_match
    self entries infos before i after :
  get_all_active_conns self = Ok entries ->
  mapM (active_info self) entries = Ok infos ->
  infos = before ++ i :: after ->
  ai_found i = true ->
  Forall (fun j => ai_found j = false) after ->
  is_protonvpn_being_prepared self
  = Ok (true, Some (ai_state i), Some (ai_path i)).
Proof.
  intros Hlist Hmap -> Hi Hafter.
  unfold is_protonvpn_being_prepared. rewrite Hlist. cbn.
  by apply (prepared_loop_last _ _ _ before i after).
Qed.

Lemma is_protonvpn_being_prepared_last_match_witness :
  is_protonvpn_being_prepared nm = Ok (true, Some 2, Some "/Active/3").
Proof.
  apply (is_protonvpn_being_prepared_last_match nm
           ["/Active/1"; "/Active/2"; "/Active/3"]
           [ {| ai_path := "/Active/1"; ai_state := 2; ai_found := false |};
             {| ai_path := "/Active/2"; ai_state := 1; ai_found := true |};
             {| ai_path := "/Active/3"; ai_state := 2; ai_found := true |} ]
           [ {| ai_path := "/Active/1"; ai_state := 2; ai_found := false |};
             {| ai_path := "/Active/2"; ai_state := 1; ai_found := true |} ]
           {| ai_path := "/Active/3"; ai_state := 2; ai_found := true |}
           []).
  - reflexivity.
  - reflexivity.
  - reflexivity.
  - reflexivity.
  - apply Forall_nil_2.
Defined.

(** *** [get_connection_device_path] *)

Lemma device_loop_step self path device rest entry :
  device_entry self device = Ok entry ->
  entry.1 = device
  /\ get_connection_device_path_loop self path (device :: rest)
     = if bool_decide (last entry.2 = Some path) then Ok (Some device)
       else get_connection_device_path_loop self path rest.
Proof.
  unfold device_entry. cbn [get_connection_device_path_loop].
  destruct (GetAll_Device (bus self) device) as [[available] | e]; cbn;
    [| done].
  intros [= <-]. cbn. split; [done |].
  destruct available as [| conn available]; [done |].
  cbn [length Nat.ltb Nat.leb]. unfold pop.
  destruct (last (conn :: available)) as [last_conn |] eqn:Hlast; cbn.
  - rewrite (bool_decide_ext (path = last_conn) (Some last_conn = Some path));
      [done | split; congruence].
  - by apply last_None in Hlast.
Qed.

Lemma device_loop_none self path devices entries :
  mapM (device_entry self) devices = Ok entries ->
  Forall (fun entry => last entry.2 <> Some path) entries ->
  get_connection_device_path_loop self path devices = Ok None.
Proof.
  revert entries.
  induction devices as [| device rest IH]; intros entries Hmap Hall.
  - done.
  - apply mapM_cons_Ok in Hmap as (entry & entries' & Hentry & Hrest & ->).
    apply Forall_cons in Hall as [Hne Hall].
    destruct (device_loop_step self path device rest entry Hentry)
      as [_ ->].
    rewrite bool_decide_eq_false_2 by done. eauto.
Qed.

Lemma device_loop_first self path devices before entry after :
  mapM (device_entry self) devices = Ok (before ++ entry :: after) ->
  Forall (fun x => last x.2 <> Some path) before ->
  last entry.2 = Some path ->
  get_connection_device_path_loop self path devices = Ok (Some entry.1).
Proof.
  revert devices.
  induction before as [| x before IH]; intros devices Hmap Hbefore Hlast;
    (destruct devices as [| device rest]; [by apply mapM_nil_Ok in Hmap |]);
    apply mapM_cons_Ok in Hmap as (y & ys & Hy & Hys & [= <- <-]);
    destruct (device_loop_step self path device rest _ Hy) as [Hdev ->].
  - rewrite bool_decide_eq_true_2 by done. by rewrite Hdev.
  - apply Forall_cons in Hbefore as [Hx Hbefore].
    rewrite bool_decide_eq_false_2 by done. by apply IH.
Qed.

Lemma device_loop_found self path devices entries device :
  mapM (device_entry self) devices = Ok entries ->
  get_connection_device_path_loop self path devices = Ok (Some device) ->
  exists available,
    (device, available) ∈ entries /\ last available = Some path.
Proof.
  revert entries.
  induction devices as [| d rest IH]; intros entries Hmap Hfound.
  - done.
  - apply mapM_cons_Ok in Hmap as ([d' available] & ys & Hy & Hys & ->).
    destruct (device_loop_step self path d rest _ Hy) as [Hdev Hstep].
    cbn in Hdev. subst d'. rewrite Hstep in Hfound. clear Hstep.
    cbn in Hfound. case_bool_decide as Hlast.
    + injection Hfound as <-. exists available. split; [| done].
      apply elem_of_cons. by left.
    + destruct (IH ys Hys Hfound) as (av & Hin & Hav).
      exists av. split; [| done]. apply elem_of_cons. by right.
Qed.

(** C8.  When the device list and every device can be read,
    [get_connection_device_path] returns the first device, in the
    order of the list, whose available connections end with the given
    profile path, and [None] when there is none.  Only that last
    element is compared: a device is returned only if the path is its
    last available connection, so a device that holds the path at
    another position is passed over. *)
Theorem get_connection_device_path_last_element
    self connection_settings_path devices entries :
  AllDevices (bus self) = Ok devices ->
  mapM (device_entry self) devices = Ok entries ->
  (forall before entry after,
      entries = before ++ entry :: after ->
      Forall (fun x => last x.2 <> Some connection_settings_path) before ->
      last entry.2 = Some connection_settings_path ->
      get_connection_device_path self connection_settings_path
      = Ok (Some entry.1))
  /\ (Forall (fun x => last x.2 <> Some connection_settings_path) entries ->
      get_connection_device_path self connection_settings_path = Ok None)
  /\ (forall device,
        get_connection_device_path self connection_settings_path
        = Ok (Some device) ->
        exists available,
          (device, available) ∈ entries
          /\ last available = Some connection_settings_path)
  /\ (forall device available other,
        entries = [(device, available ++ [other])] ->
        other <> connection_settings_path ->
        get_connection_device_path self connection_settings_path = Ok None).
Proof.
  intros Hdevices Hmap. unfold get_connection_device_path.
  rewrite Hdevices. cbn. split; [| split; [| split]].
  - intros before entry after -> Hbefore Hlast.
    by apply (device_loop_first _ _ _ before entry after).
  - by apply device_loop_none.
  - intros device. by apply device_loop_found.
  - intros device available other -> Hother.
    apply (device_loop_none _ _ _ _ Hmap).
    apply Forall_cons. split; [| apply Forall_nil_2].
    cbn. rewrite last_snoc. congruence.
Qed.

Lemma get_connection_device_path_last_element_witness :
  get_connection_device_path nm "/Settings/2" = Ok (Some "/Devices/2")
  /\ "/Settings/2" ∈ ["/Settings/2"; "/Settings/1"].
Proof.
  destruct (get_connection_device_path_last_element nm "/Settings/2"
              ["/Devices/1"; "/Devices/3"; "/Devices/2"]
              [ ("/Devices/1", ["/Settings/2"; "/Settings/1"]);
                ("/Devices/3", []);
                ("/Devices/2", ["/Settings/1"; "/Settings/2"]) ])
    as (Hfirst & _); [reflexivity | reflexivity |].
  split; [| apply elem_of_cons; by left].
  apply (Hfirst [ ("/Devices/1", ["/Settings/2"; "/Settings/1"]);
                  ("/Devices/3", []) ]
           ("/Devices/2", ["/Settings/1"; "/Settings/2"]) []).
  - reflexivity.
  - repeat (apply Forall_cons; split; [cbn; congruence |]).
    apply Forall_nil_2.
  - reflexivity.
Defined.

(** *** [check_active_vpn_conn] *)

(** C9 as stated fails.  On the host of [Scenario], "/Active/9" has
    type "vpn" and state 2, but its profile can no longer be read:
    [check_active_vpn_conn] raises the error of that read, so it does
    not return [(True, settings)] although type and state are as the
    claim asks. *)
Lemma check_active_vpn_conn_profile_unreadable :
  ~ ((exists all_settings,
         check_active_vpn_conn nm "/Active/9" = Ok (true, Some all_settings))
     <-> (exists active_conn_props,
            get_active_conn_props nm "/Active/9" = Ok active_conn_props
            /\ ac_Type active_conn_props = "vpn"
            /\ ac_State active_conn_props = 2)).
Proof.
  intros [_ Hclaim]. destruct Hclaim as [all_settings Hret].
  - eexists. split; [reflexivity |]. by split.
  - discriminate Hret.
Qed.

(** C9, amended.  [check_active_vpn_conn] returns [(True, settings)]
    exactly when the properties of the active connection can be read,
    its type is "vpn", its state is 2, and the settings of its profile
    can be read; the settings returned are those.  It returns
    [(False, None)] when the read of the properties fails with a
    [DBusException], and when the properties are read and the type is
    not "vpn" or the state is not 2.  An error of the profile read, or
    an error of the properties read that is not a [DBusException], is
    raised to the caller. *)
Theorem check_active_vpn_conn_spec self active_conn :
  (forall all_settings,
      check_active_vpn_conn self active_conn = Ok (true, Some all_settings)
      <-> exists active_conn_props,
          get_active_conn_props self active_conn = Ok active_conn_props
          /\ ac_Type active_conn_props = "vpn"
          /\ ac_State active_conn_props = 2
          /\ get_all_conn_settings self (ac_Connection active_conn_props)
             = Ok all_settings)
  /\ (forall e,
        get_active_conn_props self active_conn = Raise e ->
        check_active_vpn_conn self active_conn
        = if isinstance e DBusException then Ok (false, None) else Raise e)
  /\ (forall active_conn_props,
        get_active_conn_props self active_conn = Ok active_conn_props ->
        ~ (ac_Type active_conn_props = "vpn"
           /\ ac_State active_conn_props = 2) ->
        check_active_vpn_conn self active_conn = Ok (false, None))
  /\ (forall active_conn_props e,
        get_active_conn_props self active_conn = Ok active_conn_props ->
        ac_Type active_conn_props = "vpn" ->
        ac_State active_conn_props = 2 ->
        get_all_conn_settings self (ac_Connection active_conn_props)
        = Raise e ->
        check_active_vpn_conn self active_conn = Raise e).
Proof.
  unfold check_active_vpn_conn.
  destruct (get_active_conn_props self active_conn) as [props | e0].
  - assert (Htest :
      bool_decide (ac_Type props = "vpn") && (ac_State props =? 2) = true
      <-> ac_Type props = "vpn" /\ ac_State props = 2).
    { by rewrite andb_true_iff, bool_decide_eq_true, Z.eqb_eq. }
    destruct (bool_decide (ac_Type props = "vpn") && (ac_State props =? 2)).
    + destruct Htest as [[Hty Hst] _]; [done |].
      split; [| split; [| split]].
      * intros all_settings. cbn.
        destruct (get_all_conn_settings self (ac_Connection props))
          as [s | e] eqn:Hs; cbn.
        { split.
          - intros [= <-]. by exists props.
          - intros (props' & [= <-] & _ & _ & Hs'). congruence. }
        { split; [done |]. intros (props' & [= <-] & _ & _ & Hs').
          congruence. }
      * done.
      * intros props' [= <-] Hn. by destruct Hn.
      * intros props' e [= <-] _ _ ->. done.
    + split; [| split; [| split]].
      * intros all_settings. split; [done |].
        intros (props' & [= <-] & Hty & Hst & _).
        destruct Htest as [_ Htest]. by discriminate Htest.
      * done.
      * done.
      * intros props' e [= <-] Hty Hst _.
        destruct Htest as [_ Htest]. by discriminate Htest.
  - split; [| split; [| split]]; try done.
    + intros all_settings. split.
      * destruct (isinstance e0 DBusException); done.
      * by intros (props' & [=] & _).
    + by intros e [= <-].
Qed.

Lemma check_active_vpn_conn_spec_witness :
  check_active_vpn_conn nm "/Active/3" = Ok (true, Some (vpn_settings "protonvpn"))
  /\ check_active_vpn_conn nm "/Active/7" = Ok (false, None)
  /\ check_active_vpn_conn nm "/Active/2" = Ok (false, None).
Proof.
  split; [| split].
  - apply (check_active_vpn_conn_spec nm "/Active/3").
    eexists. split; [reflexivity |]. by repeat split.
  - destruct (check_active_vpn_conn_spec nm "/Active/7") as (_ & Hfail & _).
    apply (Hfail (Raised DBusException "No such object")). reflexivity.
  - destruct (check_active_vpn_conn_spec nm "/Active/2") as (_ & _ & Hno & _).
    eapply Hno; [reflexivity |]. by intros [_ ?].
Defined.
End DbusProperties.

(** ** Properties of the lifecycle controller *)

Section ConnectionProperties.
Import Conn Scenario.

Ltac run_M :=
  cbv [disconnect _post_disconnect _pre_setup_connection setup_connection
       try_except perform lift raise mbind mret M_bind M_ret
       settings_killswitch].

(** What [disconnect] does when the removal raises. *)
Lemma disconnect_removal_raises env self h e :
  env h vpn_remove_connection = Raise e ->
  disconnect self env h =
    ([vpn_remove_connection],
     Raise (if bool_decide (exn_class e ∈ [ConnectionNotFound;
                              RemoveConnectionFinishError;
                              StopConnectionFinishError])
            then unable_to_disconnect e else unknown_error e)).
Proof.
  intros He. run_M. rewrite He.
  destruct e as [[] msg]; reflexivity.
Qed.

(** What [disconnect] does when the removal returns. *)
Lemma disconnect_removal_returns env self h :
  env h vpn_remove_connection = Ok tt ->
  disconnect self env h =
    let post := _post_disconnect self env (h ++ [vpn_remove_connection]) in
    (vpn_remove_connection :: post.1, post.2).
Proof.
  intros He. cbv [disconnect try_except perform mbind M_bind].
  rewrite He. cbn. destruct (_post_disconnect _ _ _); reflexivity.
Qed.

(** The calls of [_post_disconnect], by outcome. *)
Lemma post_disconnect_calls env self h calls r :
  _post_disconnect self env h = (calls, r) ->
  (r = Ok tt ->
     calls = [stop_daemon_reconnector; ipv6_lp_manage DISABLE]
             ++ (if bool_decide (protonvpn_user self = Some SOFT)
                 then [killswitch_manage DISABLE None] else []))
  /\ (protonvpn_user self <> Some SOFT ->
      forall a ip, killswitch_manage a ip ∉ calls).
Proof.
  destruct self as [lp [[] |]]; run_M; cbn;
    destruct (env h stop_daemon_reconnector) as [[] | e1];
    try destruct (env (h ++ [stop_daemon_reconnector]) (ipv6_lp_manage DISABLE))
      as [[] | e2];
    cbn;
    try destruct (env _ (killswitch_manage DISABLE None)) as [[] | e3];
    intros [= <- <-]; (split; [intros; try discriminate; try reflexivity | ]);
    intros Hks a ip Hin; try (by destruct Hks);
    repeat (apply elem_of_cons in Hin as [Hin | Hin]; [discriminate |]);
    by apply elem_of_nil in Hin.
Qed.

(** The calls of [_pre_setup_connection]. *)
Lemma pre_setup_calls env self entry_ip h j c :
  (_pre_setup_connection self entry_ip env h).1 !! j = Some c ->
  (c = ipv6_lp_manage ENABLE /\ enable_ipv6_leak_protection self = true)
  \/ (c = killswitch_manage PRE_CONNECTION entry_ip
      /\ protonvpn_user self = Some HARD).
Proof.
  destruct self as [[] [[] |]]; run_M; cbn;
    try destruct (env h (ipv6_lp_manage ENABLE)) as [[] | e1]; cbn;
    try destruct (env _ (killswitch_manage PRE_CONNECTION entry_ip))
      as [[] | e2];
    cbn; destruct j as [| [| j]]; cbn; intros [= <-]; auto.
Qed.

Lemma setup_connection_unfold env self server_data user_data h :
  setup_connection self server_data user_data env h =
    match build_kwargs server_data user_data with
    | Raise e => ([], Raise e)
    | Ok kwargs =>
        let pre :=
          _pre_setup_connection self (server_data !! "server_entry_ip")
            env h in
        match pre.2 with
        | Raise e => (pre.1, Raise e)
        | Ok _ =>
            (pre.1 ++ [vpn_add_connection kwargs],
             env (h ++ pre.1) (vpn_add_connection kwargs))
        end
    end.
Proof.
  cbv [setup_connection lift mbind M_bind perform].
  destruct (build_kwargs server_data user_data) as [kwargs | e]; [| done].
  rewrite app_nil_r. cbn.
  destruct (_pre_setup_connection _ _ _ _) as [calls [[] | e]]; cbn;
    by rewrite ?app_nil_r.
Qed.

(** C1.  In every run of [setup_connection], a call of
    [vpn_add_connection] is made only after [_pre_setup_connection] has
    returned without error: the calls of the run are then exactly the
    calls of pre-setup followed by the single profile-creation call, so
    every actuator call of pre-setup (IPv6 leak protection [ENABLE];
    kill switch [PRE_CONNECTION] with the entry IP, made only in hard
    mode) comes strictly before it.  If pre-setup raises, the run ends
    in an error and [vpn_add_connection] is not called.  When the
    arguments can be built and pre-setup returns, the profile-creation
    call is made. *)
Theorem setup_connection_pre_setup_before_add
    env self server_data user_data h calls r :
  setup_connection self server_data user_data env h = (calls, r) ->
  let entry_ip := server_data !! "server_entry_ip" in
  let pre := _pre_setup_connection self entry_ip env h in
  (forall i kwargs,
      calls !! i = Some (vpn_add_connection kwargs) ->
      pre.2 = Ok tt
      /\ calls = pre.1 ++ [vpn_add_connection kwargs]
      /\ i = length pre.1)
  /\ (forall j c,
        pre.1 !! j = Some c ->
        (c = ipv6_lp_manage ENABLE
         /\ enable_ipv6_leak_protection self = true)
        \/ (c = killswitch_manage PRE_CONNECTION entry_ip
            /\ protonvpn_user self = Some HARD))
  /\ (forall e,
        pre.2 = Raise e ->
        is_ok r = false /\ forall kwargs, vpn_add_connection kwargs ∉ calls)
  /\ (forall kwargs,
        build_kwargs server_data user_data = Ok kwargs ->
        pre.2 = Ok tt ->
        calls = pre.1 ++ [vpn_add_connection kwargs]).
Proof.
  intros Hrun entry_ip pre.
  assert (Hpre : forall kwargs, vpn_add_connection kwargs ∉ pre.1).
  { intros kwargs [j Hj]%list_elem_of_lookup.
    apply pre_setup_calls in Hj as [[? _] | [? _]]; discriminate. }
  rewrite setup_connection_unfold in Hrun. fold entry_ip pre in Hrun.
  cbv zeta in Hrun. fold pre in Hrun.
  split; [| split; [| split]].
  - intros i kwargs Hi.
    destruct (build_kwargs server_data user_data) as [kw | e].
    + destruct (pre.2) as [[] | e] eqn:Hr; injection Hrun as <- <-.
      * apply lookup_app_Some in Hi as [Hi | [Hlen Hi]].
        { exfalso. apply (Hpre kwargs). apply list_elem_of_lookup. eauto. }
        destruct (i - length pre.1)%nat as [| n] eqn:Hn; [| done].
        injection Hi as ->. repeat split. lia.
      * exfalso. apply (Hpre kwargs). apply list_elem_of_lookup. eauto.
    + by injection Hrun as <- <-.
  - intros j c. apply pre_setup_calls.
  - intros e He.
    destruct (build_kwargs server_data user_data) as [kw | e'].
    + rewrite He in Hrun. injection Hrun as <- <-. split; [done | apply Hpre].
    + injection Hrun as <- <-. split; [done |]. intros kwargs.
      apply not_elem_of_nil.
  - intros kwargs Hk Hok. rewrite Hk, Hok in Hrun. by injection Hrun as <- _.
Qed.

(** C2.  Once the removal has returned, [_post_disconnect] is run
    whatever the settings are.  A [disconnect] that returns has made
    exactly these calls, in this order: the removal, the stop of the
    reconnect daemon, IPv6 leak protection [DISABLE], and kill switch
    [DISABLE] if and only if the kill-switch mode is soft.  In any
    other mode, hard in particular, no call at all reaches the kill
    switch.  When no collaborator raises and the user is set,
    [disconnect] returns. *)
Theorem disconnect_post_disconnect_effects env self h calls r :
  env h vpn_remove_connection = Ok tt ->
  disconnect self env h = (calls, r) ->
  (let post := _post_disconnect self env (h ++ [vpn_remove_connection]) in
   calls = vpn_remove_connection :: post.1 /\ r = post.2)
  /\ (r = Ok tt ->
      calls = [vpn_remove_connection; stop_daemon_reconnector;
               ipv6_lp_manage DISABLE]
              ++ (if bool_decide (protonvpn_user self = Some SOFT)
                  then [killswitch_manage DISABLE None] else []))
  /\ (protonvpn_user self <> Some SOFT ->
      forall action server_ip, killswitch_manage action server_ip ∉ calls)
  /\ ((forall h' c, env h' c = Ok tt) ->
      is_Some (protonvpn_user self) -> r = Ok tt).
Proof.
  intros Hrm Hrun. rewrite (disconnect_removal_returns _ _ _ Hrm) in Hrun.
  cbv zeta in Hrun.
  destruct (_post_disconnect self env (h ++ [vpn_remove_connection]))
    as [pcalls pr] eqn:Hpost.
  injection Hrun as <- <-. cbn.
  destruct (post_disconnect_calls _ _ _ _ _ Hpost) as [Hexact Hks].
  split; [done |]. split; [| split].
  - intros Hr. by rewrite (Hexact Hr).
  - intros Hmode action server_ip [[=] | Hin]%elem_of_cons.
    by apply (Hks Hmode action server_ip).
  - intros Henv [ks Hks']. revert Hpost. destruct self as [lp user].
    cbn in Hks'. subst user. run_M. rewrite !Henv. cbn.
    destruct (bool_decide (ks = SOFT)); rewrite ?Henv; by intros [= _ <-].
Qed.

(** C3.  When the adapter's [vpn_remove_connection] raises [e],
    [disconnect] raises [ConnectionNotFound] (with the text of [e]) if
    [e] is a [ConnectionNotFound], a [RemoveConnectionFinishError] or a
    [StopConnectionFinishError], and the plain [Exception]
    "Unknown error occured" for every other class.  Nothing else
    escapes: the raised exception is always one of these two. *)
Theorem disconnect_error_taxonomy env self h e :
  env h vpn_remove_connection = Raise e ->
  (exn_class e ∈ [ConnectionNotFound; RemoveConnectionFinishError;
                  StopConnectionFinishError] ->
   (disconnect self env h).2 =
     Raise (Raised ConnectionNotFound ("Unable to disconnect: " +:+ exn_str e)))
  /\ (exn_class e ∉ [ConnectionNotFound; RemoveConnectionFinishError;
                     StopConnectionFinishError] ->
      (disconnect self env h).2 =
        Raise (Raised Exception_ ("Unknown error occured: " +:+ exn_str e)))
  /\ (exists e',
        (disconnect self env h).2 = Raise e'
        /\ (exn_class e' = ConnectionNotFound \/ exn_class e' = Exception_)).
Proof.
  intros He. rewrite (disconnect_removal_raises _ _ _ _ He). cbn [snd].
  split; [| split].
  - intros Hin. by rewrite bool_decide_eq_true_2.
  - intros Hnin. by rewrite bool_decide_eq_false_2.
  - case_bool_decide; eexists; (split; [reflexivity |]); cbn; auto.
Qed.

(** C10.  When the adapter's [vpn_remove_connection] raises,
    [disconnect] raises and the removal is the only call it has made:
    the reconnect daemon is not stopped and neither the IPv6
    leak-protection actuator nor the kill-switch actuator is called. *)
Theorem disconnect_failure_no_post_disconnect env self h e calls r :
  env h vpn_remove_connection = Raise e ->
  disconnect self env h = (calls, r) ->
  calls = [vpn_remove_connection]
  /\ is_ok r = false
  /\ (stop_daemon_reconnector ∉ calls)
  /\ (forall action, ipv6_lp_manage action ∉ calls)
  /\ (forall action server_ip, killswitch_manage action server_ip ∉ calls).
Proof.
  intros He. rewrite (disconnect_removal_raises _ _ _ _ He).
  intros [= <- <-].
  repeat split; try done;
    intros; by intros [[=] | []%elem_of_nil]%elem_of_cons.
Qed.

Lemma setup_connection_pre_setup_before_add_witness :
  (_pre_setup_connection hard_user (Some "185.159.157.1") env_ok []).2
  = Ok tt
  /\ (setup_connection hard_user server user env_ok []).1
     = (_pre_setup_connection hard_user (Some "185.159.157.1") env_ok []).1
       ++ [vpn_add_connection
             {| kw_username := Some (PyStr "user");
                kw_password := Some (PyStr "secret");
                kw_domain := Some "node-ch-01.protonvpn.net";
                kw_servername := Some "CH#1";
                kw_dns_status := Some (PyInt 1);
                kw_custom_dns := Some (PyList []) |}].
Proof.
  destruct (setup_connection_pre_setup_before_add env_ok hard_user server
              user []
              (setup_connection hard_user server user env_ok []).1
              (setup_connection hard_user server user env_ok []).2)
    as (Hadd & _); [reflexivity |].
  destruct (Hadd 2%nat
              {| kw_username := Some (PyStr "user");
                 kw_password := Some (PyStr "secret");
                 kw_domain := Some "node-ch-01.protonvpn.net";
                 kw_servername := Some "CH#1";
                 kw_dns_status := Some (PyInt 1);
                 kw_custom_dns := Some (PyList []) |})
    as (Hpre & Hcalls & _); [reflexivity |].
  split; [exact Hpre | exact Hcalls].
Defined.

Lemma disconnect_post_disconnect_effects_witness :
  (disconnect soft_user env_ok []).1
  = [vpn_remove_connection; stop_daemon_reconnector;
     ipv6_lp_manage DISABLE; killswitch_manage DISABLE None]
  /\ (forall action server_ip,
        killswitch_manage action server_ip
        ∉ (disconnect hard_user env_ok []).1).
Proof.
  split.
  - destruct (disconnect_post_disconnect_effects env_ok soft_user []
                (disconnect soft_user env_ok []).1
                (disconnect soft_user env_ok []).2)
      as (_ & Hexact & _); [reflexivity | reflexivity |].
    apply Hexact. reflexivity.
  - destruct (disconnect_post_disconnect_effects env_ok hard_user []
                (disconnect hard_user env_ok []).1
                (disconnect hard_user env_ok []).2)
      as (_ & _ & Hhard & _); [reflexivity | reflexivity |].
    apply Hhard. discriminate.
Defined.

Lemma disconnect_error_taxonomy_witness :
  (disconnect soft_user env_finish_error []).2
  = Raise (Raised ConnectionNotFound "Unable to disconnect: timed out").
Proof.
  destruct (disconnect_error_taxonomy env_finish_error soft_user []
              (Raised RemoveConnectionFinishError "timed out"))
    as (Hmapped & _); [reflexivity |].
  apply Hmapped. apply elem_of_cons. right. apply elem_of_cons. by left.
Defined.

Lemma disconnect_failure_no_post_disconnect_witness :
  (disconnect soft_user env_finish_error []).1 = [vpn_remove_connection]
  /\ is_ok ((disconnect soft_user env_finish_error []).2) = false.
Proof.
  destruct (disconnect_failure_no_post_disconnect env_finish_error
              soft_user [] (Raised RemoveConnectionFinishError "timed out")
              (disconnect soft_user env_finish_error []).1
              (disconnect soft_user env_finish_error []).2)
    as (Hcalls & Hr & _); [reflexivity | reflexivity |].
  split; [exact Hcalls | exact Hr].
Defined.

End ConnectionProperties.

(** ** Properties of [get_vpn_interface] and [activate_connection] *)

Section VpnInterfaceProperties.
Import Dbus DbusView DbusInterfaces Scenario Hosts.
Context {Iface : Type}.
Variable geti : string -> result Iface.

Lemma vpn_data_dev_missing all_settings :
  device_name all_settings = None ->
  exists key, vpn_data_dev all_settings = Raise (Raised KeyError key).
Proof.
  unfold vpn_data_dev, device_name.
  destruct (vpn all_settings) as [[[data |]] |]; cbn; eauto.
  destruct (data !! "dev"); [done | eauto].
Qed.

(** One iteration of the loop, by what the profile holds. *)
Lemma get_vpn_interface_loop_cons self return_properties connection rest :
  get_vpn_interface_loop geti self return_properties (connection :: rest)
  = match read_connection geti self connection with
    | Raise e =>
        if isinstance e DBusException
        then get_vpn_interface_loop geti self return_properties rest
        else Raise e
    | Ok (iface, all_settings) =>
        match Dbus.connection all_settings with
        | None => Raise (Raised KeyError "'connection'")
        | Some connection_section =>
            match connection_type connection_section with
            | None => Raise (Raised KeyError "'type'")
            | Some type =>
                if bool_decide (type = "vpn") then
                  match device_name all_settings with
                  | Some dev =>
                      if bool_decide (dev = virtual_device_name self)
                      then Ok (if return_properties
                               then InterfaceAndSettings iface all_settings
                               else Interface iface)
                      else get_vpn_interface_loop geti self
                             return_properties rest
                  | None =>
                      match connection_id connection_section with
                      | Some _ =>
                          get_vpn_interface_loop geti self return_properties
                            rest
                      | None => Raise (Raised KeyError "'id'")
                      end
                  end
                else get_vpn_interface_loop geti self return_properties rest
            end
        end
    end.
Proof.
  cbn [get_vpn_interface_loop].
  destruct (read_connection geti self connection) as [[iface s] | e];
    [| done].
  destruct (Dbus.connection s) as [[id ty] |] eqn:Hcs; cbn; [| done].
  destruct ty as [ty |]; cbn; [| done].
  case_bool_decide; [| done].
  destruct (device_name s) as [dev |] eqn:Hdev.
  - apply vpn_data_dev_device_name in Hdev. by rewrite Hdev.
  - destruct (vpn_data_dev_missing s Hdev) as [key ->]. cbn.
    unfold connection_id_of. rewrite Hcs. cbn. by destruct id.
Qed.

Lemma read_connection_Ok self connection iface all_settings :
  read_connection geti self connection = Ok (iface, all_settings)
  <-> geti connection = Ok iface
      /\ get_all_conn_settings self connection = Ok all_settings.
Proof.
  unfold read_connection.
  destruct (geti connection) as [i | e]; cbn;
    [| split; [done | by intros [? _]]].
  destruct (get_all_conn_settings self connection) as [s | e]; cbn;
    [| split; [done | by intros [_ ?]]].
  split; [by intros [= <- <-] | by intros [[= <-] [= <-]]].
Qed.

Lemma get_vpn_interface_loop_sound self return_properties connections r :
  get_vpn_interface_loop geti self return_properties connections = Ok r ->
  r <> NoInterface ->
  exists connection iface all_settings connection_section,
    connection ∈ connections
    /\ geti connection = Ok iface
    /\ get_all_conn_settings self connection = Ok all_settings
    /\ Dbus.connection all_settings = Some connection_section
    /\ connection_type connection_section = Some "vpn"
    /\ device_name all_settings = Some (virtual_device_name self)
    /\ r = if return_properties
           then InterfaceAndSettings iface all_settings
           else Interface iface.
Proof.
  induction connections as [| connection rest IH]; intros Hr Hfound.
  - by injection Hr as <-.
  - assert (Hrest :
      get_vpn_interface_loop geti self return_properties rest = Ok r ->
      exists c iface all_settings connection_section,
        c ∈ connection :: rest
        /\ geti c = Ok iface
        /\ get_all_conn_settings self c = Ok all_settings
        /\ Dbus.connection all_settings = Some connection_section
        /\ connection_type connection_section = Some "vpn"
        /\ device_name all_settings = Some (virtual_device_name self)
        /\ r = if return_properties
               then InterfaceAndSettings iface all_settings
               else Interface iface).
    { intros Hr'. destruct (IH Hr' Hfound) as (c & i & s & cs & Hin & H).
      exists c, i, s, cs. split; [by apply elem_of_cons; right | done]. }
    rewrite get_vpn_interface_loop_cons in Hr.
    destruct (read_connection geti self connection) as [[iface s] | e]
      eqn:Hread.
    + apply read_connection_Ok in Hread as [Hi Hs].
      destruct (Dbus.connection s) as [cs |] eqn:Hcs; [| done].
      destruct (connection_type cs) as [ty |] eqn:Hty; [| done].
      case_bool_decide as Hvpn; [| by apply Hrest].
      destruct (device_name s) as [dev |] eqn:Hdev.
      * case_bool_decide as Hname; [| by apply Hrest].
        injection Hr as <-. exists connection, iface, s, cs.
        split; [by apply elem_of_cons; left |]. by subst.
      * destruct (connection_id cs); [by apply Hrest | done].
    + destruct (isinstance e DBusException); [by apply Hrest | done].
Qed.

(** X1.  A handle returned by [get_vpn_interface] is the interface of a
    listed profile that could be read, whose connection type is "vpn"
    and whose [vpn.data.dev] is the virtual device name; with
    [return_properties] the settings returned are the settings of that
    profile. *)
Theorem get_vpn_interface_sound self return_properties r :
  get_vpn_interface geti self return_properties = Ok r ->
  r <> NoInterface ->
  exists connections connection iface all_settings connection_section,
    get_all_conns self = Ok connections
    /\ connection ∈ connections
    /\ geti connection = Ok iface
    /\ get_all_conn_settings self connection = Ok all_settings
    /\ Dbus.connection all_settings = Some connection_section
    /\ connection_type connection_section = Some "vpn"
    /\ device_name all_settings = Some (virtual_device_name self)
    /\ r = if return_properties
           then InterfaceAndSettings iface all_settings
           else Interface iface.
Proof.
  unfold get_vpn_interface.
  destruct (get_all_conns self) as [connections | e]; cbn; [| done].
  intros Hr Hfound.
  destruct (get_vpn_interface_loop_sound _ _ _ _ Hr Hfound)
    as (c & i & s & cs & H).
  by exists connections, c, i, s, cs.
Qed.

(** X2.  When [get_vpn_interface] returns the empty tuple, no listed
    profile that can be read has connection type "vpn" and the virtual
    device name under [vpn.data.dev]. *)
Theorem get_vpn_interface_not_found
    self return_properties connections connection iface all_settings
    connection_section :
  get_vpn_interface geti self return_properties = Ok NoInterface ->
  get_all_conns self = Ok connections ->
  connection ∈ connections ->
  geti connection = Ok iface ->
  get_all_conn_settings self connection = Ok all_settings ->
  Dbus.connection all_settings = Some connection_section ->
  connection_type connection_section = Some "vpn" ->
  device_name all_settings <> Some (virtual_device_name self).
Proof.
  unfold get_vpn_interface. intros Hr Hlist. rewrite Hlist in Hr. cbn in Hr.
  clear Hlist. intros Hin Hi Hs Hcs Hty Hdev.
  induction connections as [| c rest IH]; [by apply elem_of_nil in Hin |].
  rewrite get_vpn_interface_loop_cons in Hr.
  apply elem_of_cons in Hin as [<- | Hin].
  - assert (Hread : read_connection geti self connection
                    = Ok (iface, all_settings))
      by by apply read_connection_Ok.
    rewrite Hread, Hcs, Hty, Hdev in Hr.
    rewrite !bool_decide_eq_true_2 in Hr by done.
    by destruct return_properties.
  - apply IH; [| done].
    destruct (read_connection geti self c) as [[i s] | e].
    + destruct (Dbus.connection s) as [cs |]; [| done].
      destruct (connection_type cs) as [ty |]; [| done].
      case_bool_decide; [| done].
      destruct (device_name s) as [dev |].
      * case_bool_decide; [by destruct return_properties | done].
      * by destruct (connection_id cs).
    + by destruct (isinstance e DBusException).
Qed.

Lemma get_vpn_interface_loop_skip self return_properties before rest :
  Forall (fun c => dbus_unreadable geti self c = true) before ->
  get_vpn_interface_loop geti self return_properties (before ++ rest)
  = get_vpn_interface_loop geti self return_properties rest.
Proof.
  induction 1 as [| c before Hc _ IH]; [done |].
  rewrite <- app_comm_cons, get_vpn_interface_loop_cons.
  unfold dbus_unreadable in Hc.
  destruct (read_connection geti self c) as [| e]; [done |].
  by rewrite Hc.
Qed.

(** X3.  Profiles whose read raises a [DBusException] do not count: the
    result of [get_vpn_interface] is the result of the scan over the
    listed profiles without them. *)
Theorem get_vpn_interface_skips_unreadable
    self return_properties connections :
  get_all_conns self = Ok connections ->
  get_vpn_interface geti self return_properties
  = get_vpn_interface_loop geti self return_properties
      (filter (fun c => dbus_unreadable geti self c = false) connections).
Proof.
  intros Hlist. unfold get_vpn_interface. rewrite Hlist. cbn. clear Hlist.
  induction connections as [| c rest IH]; [done |].
  rewrite filter_cons. case_decide as Hc.
  - rewrite !get_vpn_interface_loop_cons, IH. done.
  - apply not_false_is_true in Hc.
    rewrite (get_vpn_interface_loop_skip _ _ [c] rest), IH; [done |].
    by apply Forall_singleton.
Qed.

(** X4.  [get_vpn_interface] does not raise on a list whose profiles
    either fail to be read with a [DBusException] or have a connection
    section with a type and an id.  VPN profiles without [vpn], [data]
    or [dev] are allowed. *)
Theorem get_vpn_interface_returns self return_properties connections :
  get_all_conns self = Ok connections ->
  Forall (fun c =>
            dbus_unreadable geti self c = true
            \/ exists iface all_settings connection_section type id,
                read_connection geti self c = Ok (iface, all_settings)
                /\ Dbus.connection all_settings = Some connection_section
                /\ connection_type connection_section = Some type
                /\ connection_id connection_section = Some id)
    connections ->
  is_ok (get_vpn_interface geti self return_properties) = true.
Proof.
  intros Hlist. unfold get_vpn_interface. rewrite Hlist. cbn. clear Hlist.
  induction 1 as [| c rest Hc _ IH]; [done |].
  destruct Hc as [Hc | (iface & s & cs & ty & id & Hread & Hcs & Hty & Hid)].
  - by rewrite (get_vpn_interface_loop_skip _ _ [c] rest)
      by by apply Forall_singleton.
  - rewrite get_vpn_interface_loop_cons, Hread, Hcs, Hty, Hid.
    case_bool_decide; [| done].
    destruct (device_name s); [| done]. by case_bool_decide.
Qed.

(** X5.  A profile of type "vpn" without a device name under
    [vpn.data.dev], met after profiles that could not be read, does not
    end the scan when it has an id: the result is that of the profiles
    after it.  When it has no id either, the scan raises
    [KeyError('id')], from the message of the handler. *)
Theorem get_vpn_interface_missing_dev
    self return_properties connections before connection rest
    iface all_settings connection_section :
  get_all_conns self = Ok connections ->
  connections = before ++ connection :: rest ->
  Forall (fun c => dbus_unreadable geti self c = true) before ->
  read_connection geti self connection = Ok (iface, all_settings) ->
  Dbus.connection all_settings = Some connection_section ->
  connection_type connection_section = Some "vpn" ->
  device_name all_settings = None ->
  get_vpn_interface geti self return_properties
  = match connection_id connection_section with
    | Some _ => get_vpn_interface_loop geti self return_properties rest
    | None => Raise (Raised KeyError "'id'")
    end.
Proof.
  intros Hlist -> Hbefore Hread Hcs Hty Hdev.
  unfold get_vpn_interface. rewrite Hlist. cbn.
  rewrite (get_vpn_interface_loop_skip _ _ _ _ Hbefore).
  rewrite get_vpn_interface_loop_cons, Hread, Hcs, Hty, Hdev.
  by rewrite bool_decide_eq_true_2.
Qed.

(** X6.  [return_properties] changes only the shape of the answer: the
    scan with it raises, finds nothing, or finds the same interface as
    the scan without it. *)
Theorem get_vpn_interface_same_interface self :
  (fun r => match r with
            | InterfaceAndSettings iface _ => Interface iface
            | _ => r
            end) <$> get_vpn_interface geti self true
  = get_vpn_interface geti self false.
Proof.
  unfold get_vpn_interface.
  destruct (get_all_conns self) as [connections | e]; cbn; [| done].
  induction connections as [| c rest IH]; [done |].
  rewrite !get_vpn_interface_loop_cons.
  destruct (read_connection geti self c) as [[iface s] | e].
  - destruct (Dbus.connection s) as [cs |]; [| done].
    destruct (connection_type cs) as [ty |]; [| done].
    case_bool_decide; [| done].
    destruct (device_name s) as [dev |].
    + by case_bool_decide.
    + by destruct (connection_id cs).
  - by destruct (isinstance e DBusException).
Qed.

End VpnInterfaceProperties.

Section VpnInterfaceWitnesses.
Import Dbus DbusView DbusInterfaces Scenario Hosts.

Lemma get_vpn_interface_sound_witness :
  exists connection_section,
    connection (vpn_settings "ProtonVPN") = Some connection_section
    /\ connection_type connection_section = Some "vpn".
Proof.
  destruct (get_vpn_interface_sound path_interface stale true
              (InterfaceAndSettings "/Settings/2" (vpn_settings "ProtonVPN")))
    as (l & c & i & s & cs & _ & _ & _ & _ & Hcs & Hty & _ & Hr);
    [reflexivity | discriminate |].
  injection Hr as _ <-. by exists cs.
Defined.

Lemma get_vpn_interface_not_found_witness :
  device_name (vpn_settings "ProtonVPN") <> Some "tun0".
Proof.
  apply (get_vpn_interface_not_found path_interface other_device false
           ["/Settings/1"; "/Settings/2"; "/Settings/3"] "/Settings/2"
           "/Settings/2" (vpn_settings "ProtonVPN")
           {| connection_id := Some "ProtonVPN";
              connection_type := Some "vpn" |}).
  - reflexivity.
  - reflexivity.
  - apply elem_of_cons. right. apply elem_of_cons. by left.
  - reflexivity.
  - reflexivity.
  - reflexivity.
  - reflexivity.
Defined.

Lemma get_vpn_interface_skips_unreadable_witness :
  get_vpn_interface path_interface stale false = Ok (Interface "/Settings/2").
Proof.
  rewrite (get_vpn_interface_skips_unreadable path_interface stale false
             ["/Settings/9"; "/Settings/4"; "/Settings/2"]); reflexivity.
Defined.

Lemma get_vpn_interface_returns_witness :
  is_ok (get_vpn_interface path_interface stale true) = true.
Proof.
  apply (get_vpn_interface_returns path_interface stale true
           ["/Settings/9"; "/Settings/4"; "/Settings/2"]); [reflexivity |].
  apply Forall_cons. split; [by left |].
  apply Forall_cons. split.
  { right. exists "/Settings/4", foreign_vpn_settings. by eexists _, _, _. }
  apply Forall_cons. split; [| apply Forall_nil_2].
  right. exists "/Settings/2", (vpn_settings "ProtonVPN").
  by eexists _, _, _.
Defined.

Lemma get_vpn_interface_missing_dev_witness :
  get_vpn_interface path_interface stale false
  = get_vpn_interface_loop path_interface stale false ["/Settings/2"].
Proof.
  apply (get_vpn_interface_missing_dev path_interface stale false
           ["/Settings/9"; "/Settings/4"; "/Settings/2"]
           ["/Settings/9"] "/Settings/4" ["/Settings/2"]
           "/Settings/4" foreign_vpn_settings
           {| connection_id := Some "Office VPN";
              connection_type := Some "vpn" |}); try reflexivity.
  by apply Forall_singleton.
Defined.

End VpnInterfaceWitnesses.

(** ** More properties of [get_active_connection] *)

Section ActiveConnectionProperties.
Import Dbus DbusView ActiveCases Scenario Hosts.

Lemma pop_last {A} (l : list A) (x : A) : last l = Some x -> pop l = Ok x.
Proof. unfold pop. by intros ->. Qed.

Lemma pop_nonempty {A} (l : list A) :
  l <> [] -> exists x, last l = Some x /\ pop l = Ok x.
Proof.
  intros Hl. destruct (last l) as [x |] eqn:Hlast.
  - exists x. split; [done | by apply pop_last].
  - by apply last_None in Hlast.
Qed.

Lemma given_Some arg : given arg = true -> exists v, arg = Some v /\ v <> "".
Proof.
  destruct arg as [v |]; [| done]. unfold given, truthy.
  intros Hv%negb_true_iff%bool_decide_eq_false. eauto.
Qed.

(** The three tests of the loop, as one boolean, when no pop fails. *)
Lemma selected_tests get_by_id get_by_settings_path get_by_device_path props :
  ~ selected get_by_id get_by_settings_path get_by_device_path props ->
  given get_by_id && str_eq (ac_Id props) get_by_id = false
  /\ given get_by_settings_path
     && str_eq (ac_Connection props) get_by_settings_path = false
  /\ forall device,
       given get_by_device_path = true ->
       last (ac_Devices props) = Some device ->
       str_eq device get_by_device_path = false.
Proof.
  intros Hsel. unfold str_eq. split; [| split].
  - apply andb_false_iff. destruct (given get_by_id) eqn:Hg; [| by left].
    right. apply bool_decide_eq_false. intros Heq. apply Hsel. by left.
  - apply andb_false_iff.
    destruct (given get_by_settings_path) eqn:Hg; [| by left].
    right. apply bool_decide_eq_false. intros Heq. apply Hsel.
    right. by left.
  - intros device Hg Hlast. apply bool_decide_eq_false. intros Heq.
    apply Hsel. right. right. split; [done | congruence].
Qed.

Lemma active_loop_passed_over
    self get_by_id get_by_settings_path get_by_device_path active_conn rest :
  passed_over self get_by_id get_by_settings_path get_by_device_path
    active_conn ->
  get_active_connection_loop self get_by_id get_by_settings_path
    get_by_device_path (active_conn :: rest)
  = get_active_connection_loop self get_by_id get_by_settings_path
      get_by_device_path rest.
Proof.
  intros [(e & Hread & Hty & Hdbus) | (props & Hread & Hsel & Hdef & Hdev)];
    cbn [get_active_connection_loop]; rewrite Hread.
  - by rewrite Hty, Hdbus.
  - destruct (selected_tests _ _ _ _ Hsel) as (-> & -> & Hlast).
    destruct (given get_by_device_path) eqn:Hg; cbn.
    + destruct (pop_nonempty _ (Hdev eq_refl)) as (device & Hl & ->). cbn.
      by rewrite (Hlast device eq_refl Hl), Hdef.
    + by rewrite Hdef.
Qed.

Lemma active_loop_accepted
    self get_by_id get_by_settings_path get_by_device_path active_conn rest
    props :
  get_active_conn_props self active_conn = Ok props ->
  accepted get_by_id get_by_settings_path get_by_device_path props ->
  get_active_connection_loop self get_by_id get_by_settings_path
    get_by_device_path (active_conn :: rest) = Ok (Some active_conn).
Proof.
  intros Hread Hacc. cbn [get_active_connection_loop]. rewrite Hread.
  unfold str_eq.
  destruct (given get_by_id && bool_decide (Some (ac_Id props) = get_by_id))
    eqn:Hid; [done |].
  destruct (given get_by_settings_path
            && bool_decide (Some (ac_Connection props) = get_by_settings_path))
    eqn:Hpath; [done |].
  apply andb_false_iff in Hid, Hpath.
  destruct Hacc as [[[Hg Heq] | [[Hg Heq] | [Hg Heq]]] | [Hdef Hdev]].
  - destruct Hid as [Hid | Hid]; [congruence |].
    by apply bool_decide_eq_false in Hid.
  - destruct Hpath as [Hpath | Hpath]; [congruence |].
    by apply bool_decide_eq_false in Hpath.
  - rewrite Hg. destruct (given_Some _ Hg) as (v & -> & _).
    rewrite (pop_last _ _ Heq). cbn. by rewrite bool_decide_eq_true_2.
  - destruct (given get_by_device_path) eqn:Hg; cbn.
    + destruct (pop_nonempty _ (Hdev eq_refl)) as (device & _ & ->). cbn.
      destruct (bool_decide (Some device = get_by_device_path)); [done |].
      by rewrite Hdef.
    + by rewrite Hdef.
Qed.

Lemma active_loop_skip
    self get_by_id get_by_settings_path get_by_device_path before rest :
  Forall (passed_over self get_by_id get_by_settings_path get_by_device_path)
    before ->
  get_active_connection_loop self get_by_id get_by_settings_path
    get_by_device_path (before ++ rest)
  = get_active_connection_loop self get_by_id get_by_settings_path
      get_by_device_path rest.
Proof.
  induction 1 as [| c before Hc _ IH]; [done |].
  by rewrite <- app_comm_cons, active_loop_passed_over.
Qed.

(** X7.  [get_active_connection] returns the first active connection
    that passes one of the tests of the given arguments or carries the
    IPv4 default route; the entries before it are those whose read
    raised a [DBusException] and those that pass no test and have
    [Default] unset.  When every entry is of that kind the result is
    [None]. *)
Theorem get_active_connection_first_accepted
    self get_by_id get_by_settings_path get_by_device_path
    active_connections :
  get_all_active_conns self = Ok active_connections ->
  (forall before active_conn after props,
      active_connections = before ++ active_conn :: after ->
      Forall (passed_over self get_by_id get_by_settings_path
                get_by_device_path) before ->
      get_active_conn_props self active_conn = Ok props ->
      accepted get_by_id get_by_settings_path get_by_device_path props ->
      get_active_connection self get_by_id get_by_settings_path
        get_by_device_path = Ok (Some active_conn))
  /\ (Forall (passed_over self get_by_id get_by_settings_path
               get_by_device_path) active_connections ->
      get_active_connection self get_by_id get_by_settings_path
        get_by_device_path = Ok None).
Proof.
  intros Hlist. unfold get_active_connection. rewrite Hlist. cbn. split.
  - intros before active_conn after props -> Hbefore Hread Hacc.
    rewrite (active_loop_skip _ _ _ _ _ _ Hbefore).
    by apply (active_loop_accepted _ _ _ _ _ _ props).
  - intros Hall.
    rewrite <- (app_nil_r active_connections).
    by rewrite (active_loop_skip _ _ _ _ _ _ Hall).
Qed.


(** X8.  With no argument, [get_active_connection] returns the first
    active connection that can be read and has [Default] set.  Entries
    whose read raised a [DBusException] and entries with [Default] unset
    are passed over, whatever their [Default6] is: an IPv6-only default
    route is not found. *)
Theorem get_active_connection_default_route
    self active_connections before active_conn after props :
  get_all_active_conns self = Ok active_connections ->
  active_connections = before ++ active_conn :: after ->
  Forall (fun entry =>
            (exists e,
                get_active_conn_props self entry = Raise e
                /\ isinstance e TypeError = false
                /\ isinstance e DBusException = true)
            \/ (exists entry_props,
                  get_active_conn_props self entry = Ok entry_props
                  /\ ac_Default entry_props = false)) before ->
  get_active_conn_props self active_conn = Ok props ->
  ac_Default props = true ->
  select self ByDefaultRoute = Ok (Some active_conn).
Proof.
  intros Hlist -> Hbefore Hread Hdef. cbn. unfold get_active_connection.
  rewrite Hlist. cbn.
  rewrite active_loop_skip.
  - apply (active_loop_accepted _ _ _ _ _ _ props Hread).
    right. by split.
  - eapply Forall_impl; [exact Hbefore |].
    intros entry [He | (entry_props & Hp & Hd)]; [by left | right].
    exists entry_props. split; [done |]. split; [| done].
    by intros [[? _] | [[? _] | [? _]]].
Qed.

(** X9.  When no entry before it carries the IPv4 default route, the
    connection asked for by id (or by profile path) is the one
    returned: the first readable entry whose [Id] (or [Connection])
    equals the non-empty value, the entries before it being unreadable
    with a [DBusException] or different in that field. *)
Theorem get_active_connection_by_field
    self active_connections before active_conn after props v :
  get_all_active_conns self = Ok active_connections ->
  active_connections = before ++ active_conn :: after ->
  v <> "" ->
  get_active_conn_props self active_conn = Ok props ->
  (Forall (fun entry =>
             (exists e,
                 get_active_conn_props self entry = Raise e
                 /\ isinstance e TypeError = false
                 /\ isinstance e DBusException = true)
             \/ (exists entry_props,
                   get_active_conn_props self entry = Ok entry_props
                   /\ ac_Id entry_props <> v
                   /\ ac_Default entry_props = false)) before ->
   ac_Id props = v ->
   select self (ById v) = Ok (Some active_conn))
  /\ (Forall (fun entry =>
                (exists e,
                    get_active_conn_props self entry = Raise e
                    /\ isinstance e TypeError = false
                    /\ isinstance e DBusException = true)
                \/ (exists entry_props,
                      get_active_conn_props self entry = Ok entry_props
                      /\ ac_Connection entry_props <> v
                      /\ ac_Default entry_props = false)) before ->
      ac_Connection props = v ->
      select self (ByProfilePath v) = Ok (Some active_conn)).
Proof.
  intros Hlist -> Hv Hread.
  assert (Hgiven : given (Some v) = true).
  { unfold given, truthy. by rewrite bool_decide_eq_false_2. }
  split; intros Hbefore Hfield; cbn; unfold get_active_connection;
    rewrite Hlist; cbn; rewrite active_loop_skip.
  - apply (active_loop_accepted _ _ _ _ _ _ props Hread).
    left. left. by rewrite Hfield.
  - eapply Forall_impl; [exact Hbefore |].
    intros entry [He | (entry_props & Hp & Hne & Hd)]; [by left | right].
    exists entry_props. split; [done |]. split; [| done].
    intros [[_ ?] | [[? _] | [? _]]]; [congruence | done | done].
  - apply (active_loop_accepted _ _ _ _ _ _ props Hread).
    left. right. left. by rewrite Hfield.
  - eapply Forall_impl; [exact Hbefore |].
    intros entry [He | (entry_props & Hp & Hne & Hd)]; [by left | right].
    exists entry_props. split; [done |]. split; [| done].
    intros [[? _] | [[_ ?] | [? _]]]; [done | congruence | done].
Qed.

(** X10.  A [TypeError] raised by the read of an entry ends the scan
    with [None], whatever the entries after it are. *)
Theorem get_active_connection_type_error
    self get_by_id get_by_settings_path get_by_device_path
    active_connections before active_conn after e :
  get_all_active_conns self = Ok active_connections ->
  active_connections = before ++ active_conn :: after ->
  Forall (passed_over self get_by_id get_by_settings_path
            get_by_device_path) before ->
  get_active_conn_props self active_conn = Raise e ->
  isinstance e TypeError = true ->
  get_active_connection self get_by_id get_by_settings_path
    get_by_device_path = Ok None.
Proof.
  intros Hlist -> Hbefore Hread Hty. unfold get_active_connection.
  rewrite Hlist. cbn. rewrite (active_loop_skip _ _ _ _ _ _ Hbefore).
  cbn [get_active_connection_loop]. by rewrite Hread, Hty.
Qed.

(** X11.  Asked for a device path, [get_active_connection] raises
    [IndexError] at the first entry it reaches that fails the id and
    profile tests and has no bound device: the device list is popped
    without a check. *)
Theorem get_active_connection_no_device
    self get_by_id get_by_settings_path get_by_device_path
    active_connections before active_conn after props :
  get_all_active_conns self = Ok active_connections ->
  active_connections = before ++ active_conn :: after ->
  Forall (passed_over self get_by_id get_by_settings_path
            get_by_device_path) before ->
  get_active_conn_props self active_conn = Ok props ->
  given get_by_device_path = true ->
  ~ (given get_by_id = true /\ Some (ac_Id props) = get_by_id) ->
  ~ (given get_by_settings_path = true
     /\ Some (ac_Connection props) = get_by_settings_path) ->
  ac_Devices props = [] ->
  get_active_connection self get_by_id get_by_settings_path
    get_by_device_path = Raise (Raised IndexError "pop from empty list").
Proof.
  intros Hlist -> Hbefore Hread Hg Hid Hpath Hdev.
  unfold get_active_connection. rewrite Hlist. cbn.
  rewrite (active_loop_skip _ _ _ _ _ _ Hbefore).
  cbn [get_active_connection_loop]. rewrite Hread. unfold str_eq.
  destruct (given get_by_id && _) eqn:H1.
  { apply andb_true_iff in H1 as [? ?%bool_decide_eq_true]. by destruct Hid. }
  destruct (given get_by_settings_path && _) eqn:H2.
  { apply andb_true_iff in H2 as [? ?%bool_decide_eq_true].
    by destruct Hpath. }
  by rewrite Hg, Hdev.
Qed.

Lemma active_loop_empty_string self a b c a' b' c' active_connections :
  given a = given a' -> (given a = true -> a = a') ->
  given b = given b' -> (given b = true -> b = b') ->
  given c = given c' -> (given c = true -> c = c') ->
  get_active_connection_loop self a b c active_connections
  = get_active_connection_loop self a' b' c' active_connections.
Proof.
  intros Ha Ha' Hb Hb' Hc Hc'.
  induction active_connections as [| entry rest IH]; [done |].
  cbn [get_active_connection_loop]. rewrite IH. clear IH.
  destruct (get_active_conn_props self entry) as [props | e]; [| done].
  rewrite <- Ha, <- Hb, <- Hc.
  destruct (given a); [rewrite <- (Ha' eq_refl) |];
    destruct (given b); [rewrite <- (Hb' eq_refl) | | rewrite <- (Hb' eq_refl) |];
    destruct (given c); try rewrite <- (Hc' eq_refl); done.
Qed.

(** X12.  An empty string given for an argument is the same as the
    argument left out. *)
Theorem get_active_connection_empty_argument
    self get_by_id get_by_settings_path get_by_device_path :
  get_active_connection self (Some "") get_by_settings_path
    get_by_device_path
  = get_active_connection self None get_by_settings_path get_by_device_path
  /\ get_active_connection self get_by_id (Some "") get_by_device_path
     = get_active_connection self get_by_id None get_by_device_path
  /\ get_active_connection self get_by_id get_by_settings_path (Some "")
     = get_active_connection self get_by_id get_by_settings_path None.
Proof.
  unfold get_active_connection.
  destruct (get_all_active_conns self) as [l | e]; cbn; [| done].
  repeat split; by apply active_loop_empty_string.
Qed.

(** X13.  A path returned by [get_active_connection] is one of the
    listed active connections; its properties could be read, and it
    passes a test of the given arguments or carries the IPv4 default
    route. *)
Theorem get_active_connection_sound
    self get_by_id get_by_settings_path get_by_device_path active_conn :
  get_active_connection self get_by_id get_by_settings_path
    get_by_device_path = Ok (Some active_conn) ->
  exists active_connections props,
    get_all_active_conns self = Ok active_connections
    /\ active_conn ∈ active_connections
    /\ get_active_conn_props self active_conn = Ok props
    /\ accepted get_by_id get_by_settings_path get_by_device_path props.
Proof.
  unfold get_active_connection.
  destruct (get_all_active_conns self) as [l | e]; cbn; [| done].
  intros Hr. exists l.
  cut (exists props,
          active_conn ∈ l
          /\ get_active_conn_props self active_conn = Ok props
          /\ accepted get_by_id get_by_settings_path get_by_device_path
               props).
  { intros (props & H). by exists props. }
  induction l as [| entry rest IH]; [done |].
  cbn [get_active_connection_loop] in Hr.
  assert (Hrest :
    get_active_connection_loop self get_by_id get_by_settings_path
      get_by_device_path rest = Ok (Some active_conn) ->
    exists props,
      active_conn ∈ entry :: rest
      /\ get_active_conn_props self active_conn = Ok props
      /\ accepted get_by_id get_by_settings_path get_by_device_path props).
  { intros Hr'. destruct (IH Hr') as (props & Hin & H).
    exists props. split; [by apply elem_of_cons; right | done]. }
  destruct (get_active_conn_props self entry) as [props | e] eqn:Hread.
  - unfold str_eq in Hr.
    destruct (given get_by_id && _) eqn:H1.
    { injection Hr as <-. exists props.
      apply andb_true_iff in H1 as [? ?%bool_decide_eq_true].
      split; [by apply elem_of_cons; left |]. split; [done |].
      left. by left. }
    destruct (given get_by_settings_path && _) eqn:H2.
    { injection Hr as <-. exists props.
      apply andb_true_iff in H2 as [? ?%bool_decide_eq_true].
      split; [by apply elem_of_cons; left |]. split; [done |].
      left. right. by left. }
    destruct (given get_by_device_path) eqn:Hg; cbn in Hr.
    + unfold pop in Hr.
      destruct (last (ac_Devices props)) as [device |] eqn:Hlast; [| done].
      cbn in Hr. case_bool_decide as Hdev.
      { injection Hr as <-. exists props.
        split; [by apply elem_of_cons; left |]. split; [done |].
        left. right. right. split; [done | congruence]. }
      destruct (ac_Default props) eqn:Hdef; cbn in Hr; [| by apply Hrest].
      injection Hr as <-. exists props.
      split; [by apply elem_of_cons; left |]. split; [done |].
      right. split; [done |]. intros _ Hnil. by rewrite Hnil in Hlast.
    + destruct (ac_Default props) eqn:Hdef; cbn in Hr; [| by apply Hrest].
      injection Hr as <-. exists props.
      split; [by apply elem_of_cons; left |]. split; [done |].
      right. split; [done | congruence].
  - destruct (isinstance e TypeError); [done |].
    destruct (isinstance e DBusException); [by apply Hrest | done].
Qed.

Lemma get_active_connection_first_accepted_witness :
  select (with_active ["/Active/8"; "/Active/5"; "/Active/3"; "/Active/1"])
    (ById "protonvpn") = Ok (Some "/Active/3")
  /\ select (with_active ["/Active/8"; "/Active/5"]) (ById "protonvpn")
     = Ok None.
Proof.
  split.
  - destruct (get_active_connection_first_accepted
                (with_active ["/Active/8"; "/Active/5"; "/Active/3";
                              "/Active/1"])
                (Some "protonvpn") None None
                ["/Active/8"; "/Active/5"; "/Active/3"; "/Active/1"])
      as [Hfirst _]; [reflexivity |].
    eapply (Hfirst ["/Active/8"; "/Active/5"] "/Active/3" ["/Active/1"]).
    + reflexivity.
    + apply Forall_cons. split.
      { left. by eexists. }
      apply Forall_cons. split; [| apply Forall_nil_2].
      right. eexists. split; [reflexivity |]. split; [| done].
      by intros [[_ ?] | [[? _] | [? _]]].
    + reflexivity.
    + left. left. by split.
  - destruct (get_active_connection_first_accepted
                (with_active ["/Active/8"; "/Active/5"])
                (Some "protonvpn") None None ["/Active/8"; "/Active/5"])
      as [_ Hnone]; [reflexivity |].
    apply Hnone. apply Forall_cons. split.
    { left. by eexists. }
    apply Forall_cons. split; [| apply Forall_nil_2].
    right. eexists. split; [reflexivity |]. split; [| done].
    by intros [[_ ?] | [[? _] | [? _]]].
Defined.

Lemma get_active_connection_default_route_witness :
  select (with_active ["/Active/8"; "/Active/5"; "/Active/3"; "/Active/1"])
    ByDefaultRoute = Ok (Some "/Active/1").
Proof.
  eapply (get_active_connection_default_route
            (with_active ["/Active/8"; "/Active/5"; "/Active/3"; "/Active/1"])
            _ ["/Active/8"; "/Active/5"; "/Active/3"] "/Active/1" []).
  - reflexivity.
  - reflexivity.
  - apply Forall_cons. split; [left; by eexists |].
    apply Forall_cons. split; [right; by eexists |].
    apply Forall_cons. split; [right; by eexists | apply Forall_nil_2].
  - reflexivity.
  - reflexivity.
Defined.

Lemma get_active_connection_by_field_witness :
  select (with_active ["/Active/8"; "/Active/2"; "/Active/1"])
    (ById "ProtonVPN") = Ok (Some "/Active/2")
  /\ select (with_active ["/Active/8"; "/Active/2"; "/Active/1"])
       (ByProfilePath "/Settings/2") = Ok (Some "/Active/2").
Proof.
  split.
  - eapply (get_active_connection_by_field
              (with_active ["/Active/8"; "/Active/2"; "/Active/1"])
              _ ["/Active/8"] "/Active/2" ["/Active/1"]);
      [reflexivity | reflexivity | done | reflexivity | | reflexivity].
    apply Forall_singleton. left. by eexists.
  - eapply (get_active_connection_by_field
              (with_active ["/Active/8"; "/Active/2"; "/Active/1"])
              _ ["/Active/8"] "/Active/2" ["/Active/1"]);
      [reflexivity | reflexivity | done | reflexivity | | reflexivity].
    apply Forall_singleton. left. by eexists.
Defined.

Lemma get_active_connection_type_error_witness :
  select (with_active ["/Active/0"; "/Active/1"]) ByDefaultRoute = Ok None.
Proof.
  eapply (get_active_connection_type_error
            (with_active ["/Active/0"; "/Active/1"]) None None None
            _ [] "/Active/0" ["/Active/1"]).
  - reflexivity.
  - reflexivity.
  - apply Forall_nil_2.
  - reflexivity.
  - reflexivity.
Defined.

Lemma get_active_connection_no_device_witness :
  select (with_active ["/Active/5"; "/Active/2"]) (ByDevicePath "/Devices/4")
  = Raise (Raised IndexError "pop from empty list").
Proof.
  eapply (get_active_connection_no_device
            (with_active ["/Active/5"; "/Active/2"]) None None
            (Some "/Devices/4") _ [] "/Active/5" ["/Active/2"]).
  - reflexivity.
  - reflexivity.
  - apply Forall_nil_2.
  - reflexivity.
  - reflexivity.
  - by intros [? _].
  - by intros [? _].
  - reflexivity.
Defined.

Lemma get_active_connection_sound_witness :
  exists props,
    get_active_conn_props nm "/Active/1" = Ok props
    /\ accepted (Some "ProtonVPN") None None props.
Proof.
  destruct (get_active_connection_sound nm (Some "ProtonVPN") None None
              "/Active/1") as (l & props & _ & _ & Hread & Hacc);
    [reflexivity |].
  by exists props.
Defined.

End ActiveConnectionProperties.

(** ** More properties of [search_for_connection] *)

Section SearchProperties.
Import Dbus DbusView Scenario Hosts.

(** A result of the loop is empty or was built for a listed entry that
    satisfies the rule. *)
Lemma search_loop_sound {L : StrLower} self name interface_name flags entries d :
  search_for_connection_loop self name interface_name flags entries = Ok d ->
  d = ∅
  \/ exists entry p,
      entry ∈ entries
      /\ entry_profile self flags entry = Ok p
      /\ satisfies name interface_name p
      /\ build_return_dict self flags (p_id p) (p_path p) = Ok d.
Proof.
  induction entries as [| entry rest IH]; [by intros [= <-]; left |].
  destruct (entry_profile self flags entry) as [p | e] eqn:Hp.
  - destruct (search_loop_step self name interface_name flags entry rest p Hp)
      as [Hyes Hno].
    assert (Hdec : satisfies name interface_name p
                   \/ ~ satisfies name interface_name p).
    { revert Hp. rewrite entry_profile_reads.
      destruct (profile_of self flags entry) as [path | ?]; cbn; [| done].
      destruct (get_all_conn_settings self path) as [all | ?]; cbn; [| done].
      destruct (connection all) as [[[id |] ty] |]; cbn; try done.
      intros [= <-].
      pose proof (is_match_satisfies name interface_name id all path) as Hm.
      destruct (is_match name interface_name id (dev_name_of all)).
      - left. by apply Hm.
      - right. intros Hs. by apply Hm in Hs. }
    destruct Hdec as [Hs | Hs].
    + rewrite (Hyes Hs). intros Hd. right. exists entry, p.
      split; [by apply elem_of_cons; left | done].
    + rewrite (Hno Hs). intros Hd.
      destruct (IH Hd) as [-> | (entry' & p' & Hin & H)]; [by left |].
      right. exists entry', p'. split; [by apply elem_of_cons; right | done].
  - intros Hr. exfalso. revert Hp Hr. rewrite entry_profile_reads.
    cbn [search_for_connection_loop].
    destruct (profile_of self flags entry) as [path | ?]; cbn; [| done].
    destruct (get_all_conn_settings self path) as [all | ?]; cbn; [| done].
    destruct (connection all) as [[[id |] ty] |]; cbn; done.
Qed.

Lemma build_return_dict_dom self flags id path d :
  build_return_dict self flags id path = Ok d ->
  dom d
  = {[ "connection_id" ]}
    ∪ (if return_settings_path flags then {[ "settings_path" ]} else ∅)
    ∪ (if return_device_path flags then {[ "device_path" ]} else ∅)
    ∪ (if return_active_conn_path flags && is_active flags
       then {[ "active_conn_path" ]} else ∅).
Proof.
  unfold build_return_dict.
  destruct flags as [act [] [] []]; cbn;
    try destruct (get_connection_device_path self path) as [dev | e]; cbn;
    try destruct act; cbn;
    try destruct (get_active_connection self None (Some path) None)
      as [ac | e']; cbn;
    try done; intros [= <-];
    rewrite ?dom_insert_L, dom_singleton_L; set_solver.
Qed.

(** X14.  The dictionary returned for a connection that was found always
    has the key [connection_id]; it has [settings_path] exactly when
    [return_settings_path] is set, [device_path] exactly when
    [return_device_path] is set, and [active_conn_path] exactly when
    both [return_active_conn_path] and [is_active] are set; it has no
    other key. *)
Theorem search_for_connection_keys {L : StrLower} self conn_name interface_name flags d :
  search_for_connection self conn_name interface_name flags = Ok d ->
  d <> ∅ ->
  dom d
  = {[ "connection_id" ]}
    ∪ (if return_settings_path flags then {[ "settings_path" ]} else ∅)
    ∪ (if return_device_path flags then {[ "device_path" ]} else ∅)
    ∪ (if return_active_conn_path flags && is_active flags
       then {[ "active_conn_path" ]} else ∅).
Proof.
  unfold search_for_connection.
  destruct (if is_active flags then _ else _) as [entries | e]; cbn;
    [| done].
  intros Hr Hd.
  destruct (search_loop_sound _ _ _ _ _ _ Hr)
    as [-> | (entry & p & _ & _ & _ & Hbuild)]; [done |].
  by apply (build_return_dict_dom _ _ _ _ _ Hbuild).
Qed.

(** X15.  A non-empty result of [search_for_connection] was built for
    an entry of the list that was searched: the profile of that entry
    (the entry itself, or the profile its ["Connection"] property names
    in a search among the active connections) has settings with an id,
    this id is the [connection_id] of the result, and either it is
    exactly the name, or its lower-casing contains the lower-cased name
    while the interface name is given and is the profile's VPN device
    name.  No hypothesis on the other entries is needed. *)
Theorem search_for_connection_sound {L : StrLower}
    self conn_name interface_name flags d :
  search_for_connection self conn_name interface_name flags = Ok d ->
  d <> ∅ ->
  exists entries entry path settings section id,
    (if is_active flags then ActiveConnections (bus self)
     else ListConnections (bus self)) = Ok entries
    /\ entry ∈ entries
    /\ (if is_active flags
        then exists active,
               GetAll_Active (bus self) entry = Ok active
               /\ ac_Connection active = path
        else entry = path)
    /\ GetSettings (bus self) path = Ok settings
    /\ connection settings = Some section
    /\ connection_id section = Some id
    /\ (conn_name = id
        \/ (is_substring (str_lower conn_name) (str_lower id)
            /\ exists iface,
                 interface_name = Some iface
                 /\ device_name settings = Some iface))
    /\ d !! "connection_id" = Some (Some id).
Proof.
  unfold search_for_connection, get_all_active_conns, get_all_conns.
  destruct (if is_active flags then _ else _) as [entries | e]; cbn;
    [| done].
  intros Hr Hd.
  destruct (search_loop_sound _ _ _ _ _ _ Hr)
    as [-> | (entry & p & Hin & Hp & Hs & Hbuild)]; [done |].
  destruct (entry_profile_Ok _ _ _ _ Hp)
    as (settings & section & Hpath & Hsettings & Hsection & Hid & Hdev).
  exists entries, entry, (p_path p), settings, section, (p_id p).
  repeat (split; [done |]). split.
  - destruct Hs as [Hexact | [Hsub (iface & Hi & Hd')]]; [by left |].
    right. split; [done |]. exists iface. by rewrite Hdev.
  - by apply (build_return_dict_keys _ _ _ _ _ Hbuild).
Qed.

(** X16.  Without an interface name only an exact id matches: the
    [connection_id] of a non-empty result is the name asked for. *)
Theorem search_for_connection_no_interface {L : StrLower} self conn_name flags d :
  search_for_connection self conn_name None flags = Ok d ->
  d <> ∅ ->
  d !! "connection_id" = Some (Some conn_name).
Proof.
  unfold search_for_connection.
  destruct (if is_active flags then _ else _) as [entries | e]; cbn;
    [| done].
  intros Hr Hd.
  destruct (search_loop_sound _ _ _ _ _ _ Hr)
    as [-> | (entry & p & _ & _ & Hs & Hbuild)]; [done |].
  destruct Hs as [Hexact | [_ (iface & [=] & _)]].
  unfold exact_match in Hexact. rewrite Hexact.
  by apply (build_return_dict_keys _ _ _ _ _ Hbuild).
Qed.

Lemma search_loop_skip {L : StrLower} self name interface_name flags before profiles rest :
  mapM (entry_profile self flags) before = Ok profiles ->
  Forall (fun p => ~ satisfies name interface_name p) profiles ->
  search_for_connection_loop self name interface_name flags (before ++ rest)
  = search_for_connection_loop self name interface_name flags rest.
Proof.
  revert profiles.
  induction before as [| entry before IH]; intros profiles Hmap Hall; [done |].
  apply mapM_cons_Ok in Hmap as (p & ps & Hp & Hps & ->).
  apply Forall_cons in Hall as [Hn Hall]. rewrite <- app_comm_cons.
  destruct (search_loop_step self name interface_name flags entry
              (before ++ rest) p Hp) as [_ ->]; eauto.
Qed.

(** X17.  The search stops at the first match: only the entries up to
    it are read.  When they can be read and none before it satisfies
    the rule, the answer is the dictionary of that entry, whatever the
    entries after it are (they may be unreadable). *)
Theorem search_for_connection_stops_at_match {L : StrLower}
    self conn_name interface_name flags entries before entry after
    profiles p :
  (if is_active flags then get_all_active_conns self
   else get_all_conns self) = Ok entries ->
  entries = before ++ entry :: after ->
  mapM (entry_profile self flags) before = Ok profiles ->
  Forall (fun q => ~ satisfies conn_name interface_name q) profiles ->
  entry_profile self flags entry = Ok p ->
  satisfies conn_name interface_name p ->
  search_for_connection self conn_name interface_name flags
  = build_return_dict self flags (p_id p) (p_path p).
Proof.
  intros Hlist -> Hbefore Hnone Hp Hs. unfold search_for_connection.
  rewrite Hlist. cbn. rewrite (search_loop_skip _ _ _ _ _ _ _ Hbefore Hnone).
  by destruct (search_loop_step self conn_name interface_name flags entry
                 after p Hp) as [-> _].
Qed.

(** X18.  An entry that cannot be read, met before any match, makes the
    search raise the error of that read: unreadable entries are not
    skipped. *)
Theorem search_for_connection_read_error {L : StrLower}
    self conn_name interface_name flags entries before entry after
    profiles e :
  (if is_active flags then get_all_active_conns self
   else get_all_conns self) = Ok entries ->
  entries = before ++ entry :: after ->
  mapM (entry_profile self flags) before = Ok profiles ->
  Forall (fun q => ~ satisfies conn_name interface_name q) profiles ->
  entry_profile self flags entry = Raise e ->
  search_for_connection self conn_name interface_name flags = Raise e.
Proof.
  intros Hlist -> Hbefore Hnone He. unfold search_for_connection.
  rewrite Hlist. cbn. rewrite (search_loop_skip _ _ _ _ _ _ _ Hbefore Hnone).
  revert He. rewrite entry_profile_reads. cbn [search_for_connection_loop].
  destruct (profile_of self flags entry) as [path | ?]; cbn;
    [| by intros [= <-]].
  destruct (get_all_conn_settings self path) as [all | ?]; cbn;
    [| by intros [= <-]].
  destruct (connection all) as [[[id |] ty] |]; cbn;
    by intros [= <-].
Qed.

(** X19.  In a search among the active connections with
    [return_active_conn_path], the path reported under
    [active_conn_path] is looked up again by profile path; when the
    first active connection carries the IPv4 default route (and has a
    device), it is that first connection that is reported, whichever
    entry matched. *)
Theorem search_for_connection_active_path {L : StrLower}
    self conn_name interface_name flags first rest props d :
  is_active flags = true ->
  return_active_conn_path flags = true ->
  get_all_active_conns self = Ok (first :: rest) ->
  get_active_conn_props self first = Ok props ->
  ac_Default props = true ->
  ac_Devices props <> [] ->
  search_for_connection self conn_name interface_name flags = Ok d ->
  d <> ∅ ->
  d !! "active_conn_path" = Some (Some first).
Proof.
  intros Hact Hret Hlist Hprops Hdef Hdev. unfold search_for_connection.
  rewrite Hact, Hlist. cbn [mbind result_bind]. intros Hr Hd.
  destruct (search_loop_sound _ _ _ _ _ _ Hr)
    as [-> | (entry & p & _ & _ & _ & Hbuild)]; [done |].
  revert Hbuild. unfold build_return_dict. rewrite Hact, Hret. cbn.
  rewrite (get_active_connection_first_default self None (Some (p_path p))
             None first rest props Hlist Hprops Hdef Hdev). cbn.
  destruct (return_device_path flags); cbn;
    [destruct (get_connection_device_path self (p_path p)); cbn; [| done] |];
    intros [= <-]; by simplify_map_eq.
Qed.


Lemma search_for_connection_keys_witness :
  dom ({[ "connection_id" := Some "ProtonVPN";
          "settings_path" := Some "/Settings/2";
          "device_path" := Some "/Devices/2" ]} : gmap string (option string))
  = {[ "connection_id" ]} ∪ {[ "settings_path" ]} ∪ {[ "device_path" ]} ∪ ∅.
Proof.
  apply (search_for_connection_keys (L := ascii_str_lower) nm "protonvpn"
           (Some "proton0") profiles_only); [reflexivity | apply insert_non_empty].
Defined.

Lemma search_for_connection_sound_witness :
  exists entry path settings id,
    entry ∈ ["/Active/1"; "/Active/2"; "/Active/3"]
    /\ (exists active,
          GetAll_Active nm_bus entry = Ok active
          /\ ac_Connection active = path)
    /\ GetSettings nm_bus path = Ok settings
    /\ (id = "protonvpn"
        \/ exists iface,
             Some "proton0" = Some iface
             /\ device_name settings = Some iface)
    /\ ({[ "connection_id" := Some "ProtonVPN";
           "settings_path" := Some "/Settings/2" ]}
        : gmap string (option string)) !! "connection_id"
       = Some (Some id).
Proof.
  destruct (search_for_connection_sound (L := ascii_str_lower) nm
              "protonvpn" (Some "proton0") active_profiles
              {[ "connection_id" := Some "ProtonVPN";
                 "settings_path" := Some "/Settings/2" ]})
    as (entries & entry & path & settings & section & id
        & Hlist & Hin & Hpath & Hsettings & Hsection & Hid & Hrule & Hd);
    [reflexivity | apply insert_non_empty |].
  injection Hlist as <-.
  exists entry, path, settings, id.
  split; [exact Hin |]. split; [exact Hpath |]. split; [exact Hsettings |].
  split; [| exact Hd].
  destruct Hrule as [Hexact | [_ Hiface]];
    [left; symmetry; exact Hexact | right; exact Hiface].
Defined.

Lemma search_for_connection_no_interface_witness :
  ({[ "connection_id" := Some "protonvpn";
      "settings_path" := Some "/Settings/3";
      "device_path" := None ]} : gmap string (option string))
    !! "connection_id" = Some (Some "protonvpn").
Proof.
  apply (search_for_connection_no_interface (L := ascii_str_lower) nm
           "protonvpn" profiles_only);
    [reflexivity | apply insert_non_empty].
Defined.

Lemma search_for_connection_stops_at_match_witness :
  search_for_connection (L := ascii_str_lower)
    (with_profiles ["/Settings/1"; "/Settings/2"; "/Settings/9"])
    "protonvpn" (Some "proton0") profiles_only
  = build_return_dict
      (with_profiles ["/Settings/1"; "/Settings/2"; "/Settings/9"])
      profiles_only "ProtonVPN" "/Settings/2"
  /\ search_for_connection (L := ascii_str_lower)
       (with_active ["/Active/1"; "/Active/2"; "/Active/9"])
       "protonvpn" (Some "proton0") active_profiles
     = build_return_dict
         (with_active ["/Active/1"; "/Active/2"; "/Active/9"])
         active_profiles "ProtonVPN" "/Settings/2".
Proof.
  split.
  - apply (search_for_connection_stops_at_match (L := ascii_str_lower)
             (with_profiles ["/Settings/1"; "/Settings/2"; "/Settings/9"])
             "protonvpn" (Some "proton0") profiles_only
             ["/Settings/1"; "/Settings/2"; "/Settings/9"]
             ["/Settings/1"] "/Settings/2" ["/Settings/9"]
             [ {| p_path := "/Settings/1"; p_id := "Wired connection 1";
                  p_dev := None |} ]
             {| p_path := "/Settings/2"; p_id := "ProtonVPN";
                p_dev := Some "proton0" |}).
    + reflexivity.
    + reflexivity.
    + reflexivity.
    + apply Forall_singleton.
      intros [Hexact | [_ (iface & _ & Hdev)]]; discriminate.
    + reflexivity.
    + right. split; [by apply contains_spec | by exists "proton0"].
  - apply (search_for_connection_stops_at_match (L := ascii_str_lower)
             (with_active ["/Active/1"; "/Active/2"; "/Active/9"])
             "protonvpn" (Some "proton0") active_profiles
             ["/Active/1"; "/Active/2"; "/Active/9"]
             ["/Active/1"] "/Active/2" ["/Active/9"]
             [ {| p_path := "/Settings/1"; p_id := "Wired connection 1";
                  p_dev := None |} ]
             {| p_path := "/Settings/2"; p_id := "ProtonVPN";
                p_dev := Some "proton0" |}).
    + reflexivity.
    + reflexivity.
    + reflexivity.
    + apply Forall_singleton.
      intros [Hexact | [_ (iface & _ & Hdev)]]; discriminate.
    + reflexivity.
    + right. split; [by apply contains_spec | by exists "proton0"].
Defined.

Lemma search_for_connection_read_error_witness :
  search_for_connection (L := ascii_str_lower)
    (with_profiles ["/Settings/1"; "/Settings/9"; "/Settings/2"])
    "protonvpn" (Some "proton0") profiles_only
  = Raise (Raised DBusException "No such object")
  /\ search_for_connection (L := ascii_str_lower)
       (with_active ["/Active/1"; "/Active/9"; "/Active/2"])
       "protonvpn" (Some "proton0") active_profiles
     = Raise (Raised DBusException "No such object").
Proof.
  split.
  - apply (search_for_connection_read_error (L := ascii_str_lower)
             (with_profiles ["/Settings/1"; "/Settings/9"; "/Settings/2"])
             "protonvpn" (Some "proton0") profiles_only
             ["/Settings/1"; "/Settings/9"; "/Settings/2"]
             ["/Settings/1"] "/Settings/9" ["/Settings/2"]
             [ {| p_path := "/Settings/1"; p_id := "Wired connection 1";
                  p_dev := None |} ]).
    + reflexivity.
    + reflexivity.
    + reflexivity.
    + apply Forall_singleton.
      intros [Hexact | [_ (iface & _ & Hdev)]]; discriminate.
    + reflexivity.
  - apply (search_for_connection_read_error (L := ascii_str_lower)
             (with_active ["/Active/1"; "/Active/9"; "/Active/2"])
             "protonvpn" (Some "proton0") active_profiles
             ["/Active/1"; "/Active/9"; "/Active/2"]
             ["/Active/1"] "/Active/9" ["/Active/2"]
             [ {| p_path := "/Settings/1"; p_id := "Wired connection 1";
                  p_dev := None |} ]).
    + reflexivity.
    + reflexivity.
    + reflexivity.
    + apply Forall_singleton.
      intros [Hexact | [_ (iface & _ & Hdev)]]; discriminate.
    + reflexivity.
Defined.

Lemma search_for_connection_active_path_witness :
  ({[ "connection_id" := Some "ProtonVPN";
      "settings_path" := Some "/Settings/2";
      "active_conn_path" := Some "/Active/1" ]}
   : gmap string (option string)) !! "active_conn_path"
  = Some (Some "/Active/1").
Proof.
  eapply (search_for_connection_active_path (L := ascii_str_lower) nm
            "ProtonVPN" None active_paths
            "/Active/1" ["/Active/2"; "/Active/3"]).
  - reflexivity.
  - reflexivity.
  - reflexivity.
  - reflexivity.
  - reflexivity.
  - discriminate.
  - reflexivity.
  - apply insert_non_empty.
Defined.

End SearchProperties.

(** ** More properties of [is_protonvpn_being_prepared] and
    [get_connection_device_path] *)

Section ScanProperties.
Import Dbus DbusView Scenario Hosts.

Lemma prepared_loop_raise self info active_conn rest e :
  active_info self active_conn = Raise e ->
  is_protonvpn_being_prepared_loop self info (active_conn :: rest) = Raise e.
Proof.
  unfold active_info. cbn [is_protonvpn_being_prepared_loop].
  destruct (get_active_conn_props self active_conn) as [props | e1]; cbn;
    [| by intros [= <-]].
  destruct (get_all_conn_settings self (ac_Connection props))
    as [settings | e2]; cbn; [| by intros [= <-]].
  destruct (if bool_decide (ac_Type props = "vpn") then _ else _)
    as [found | e3]; cbn; [done | by intros [= <-]].
Qed.

Lemma prepared_loop_sound self info active_connections r :
  is_protonvpn_being_prepared_loop self info active_connections = Ok r ->
  r = info
  \/ exists entry i,
      entry ∈ active_connections
      /\ active_info self entry = Ok i
      /\ ai_found i = true
      /\ r = (true, Some (ai_state i), Some (ai_path i)).
Proof.
  revert info.
  induction active_connections as [| entry rest IH]; intros info Hr.
  - left. by injection Hr.
  - destruct (active_info self entry) as [i | e] eqn:Hi.
    + rewrite (prepared_loop_step _ _ _ _ _ Hi) in Hr.
      destruct (IH _ Hr) as [-> | (entry' & i' & Hin & H)].
      * destruct (ai_found i) eqn:Hfound; [| by left].
        right. exists entry, i. split; [by apply elem_of_cons; left | done].
      * right. exists entry', i'.
        split; [by apply elem_of_cons; right | done].
    + by rewrite (prepared_loop_raise _ _ _ _ _ Hi) in Hr.
Qed.

(** X20.  The triple [is_protonvpn_being_prepared] returns is either
    [(False, None, None)] or [(True, state, path)] for a listed active
    connection whose type is "vpn" and whose profile has the virtual
    device name under [vpn.data.dev]; the state is that connection's
    [State]. *)
Theorem is_protonvpn_being_prepared_sound self info :
  is_protonvpn_being_prepared self = Ok info ->
  info = (false, None, None)
  \/ exists active_connections active_conn props vpn_all_settings,
      get_all_active_conns self = Ok active_connections
      /\ active_conn ∈ active_connections
      /\ get_active_conn_props self active_conn = Ok props
      /\ get_all_conn_settings self (ac_Connection props)
         = Ok vpn_all_settings
      /\ ac_Type props = "vpn"
      /\ device_name vpn_all_settings = Some (virtual_device_name self)
      /\ info = (true, Some (ac_State props), Some active_conn).
Proof.
  unfold is_protonvpn_being_prepared.
  destruct (get_all_active_conns self) as [l | e]; cbn; [| done].
  intros Hr.
  destruct (prepared_loop_sound _ _ _ _ Hr)
    as [-> | (entry & i & Hin & Hi & Hfound & ->)]; [by left | right].
  destruct (active_info_spec _ _ _ Hi)
    as (Hpath & props & s & Hprops & Hs & Hstate & Hmeaning).
  apply Hmeaning in Hfound as [Hty Hdev].
  exists l, entry, props, s. rewrite Hstate, Hpath. done.
Qed.

Lemma prepared_loop_skip self info before infos rest :
  mapM (active_info self) before = Ok infos ->
  exists info',
    is_protonvpn_being_prepared_loop self info (before ++ rest)
    = is_protonvpn_being_prepared_loop self info' rest.
Proof.
  revert info infos.
  induction before as [| entry before IH]; intros info infos Hmap.
  - by exists info.
  - apply mapM_cons_Ok in Hmap as (i & is' & Hi & His & ->).
    rewrite <- app_comm_cons, (prepared_loop_step _ _ _ _ _ Hi).
    by apply (IH _ is').
Qed.

(** X21.  An active connection that cannot be read as the loop needs
    it makes [is_protonvpn_being_prepared] raise that error, wherever
    it stands in the list, even after a match: the entries before it
    only have to be readable. *)
Theorem is_protonvpn_being_prepared_read_error
    self active_connections before active_conn after infos e :
  get_all_active_conns self = Ok active_connections ->
  active_connections = before ++ active_conn :: after ->
  mapM (active_info self) before = Ok infos ->
  active_info self active_conn = Raise e ->
  is_protonvpn_being_prepared self = Raise e.
Proof.
  intros Hlist -> Hbefore He. unfold is_protonvpn_being_prepared.
  rewrite Hlist. cbn.
  destruct (prepared_loop_skip self (false, None, None) before infos
              (active_conn :: after) Hbefore) as [info' ->].
  by apply prepared_loop_raise.
Qed.

(** X22.  [is_protonvpn_being_prepared] returns when every active
    connection and its profile can be read and every active connection
    of type "vpn" has a device name under [vpn.data.dev].  Profiles of
    other types need no [vpn] section: it is looked at for type "vpn"
    only. *)
Theorem is_protonvpn_being_prepared_returns self active_connections :
  get_all_active_conns self = Ok active_connections ->
  Forall (fun active_conn =>
            exists props vpn_all_settings,
              get_active_conn_props self active_conn = Ok props
              /\ get_all_conn_settings self (ac_Connection props)
                 = Ok vpn_all_settings
              /\ (ac_Type props = "vpn" ->
                  is_Some (device_name vpn_all_settings)))
    active_connections ->
  is_ok (is_protonvpn_being_prepared self) = true.
Proof.
  intros Hlist Hall. unfold is_protonvpn_being_prepared. rewrite Hlist. cbn.
  generalize (false, @None Z, @None string). clear Hlist.
  induction Hall as [| entry rest (props & s & Hprops & Hs & Hdev) _ IH];
    intros info; [done |].
  assert (Hi : exists i, active_info self entry = Ok i).
  { unfold active_info. rewrite Hprops. cbn. rewrite Hs. cbn.
    case_bool_decide as Hty; cbn; [| by eexists].
    destruct (Hdev Hty) as [dev Hname].
    apply vpn_data_dev_device_name in Hname. rewrite Hname. by eexists. }
  destruct Hi as [i Hi]. by rewrite (prepared_loop_step _ _ _ _ _ Hi).
Qed.

Lemma device_loop_raise self path device rest e :
  device_entry self device = Raise e ->
  get_connection_device_path_loop self path (device :: rest) = Raise e.
Proof.
  unfold device_entry. cbn [get_connection_device_path_loop].
  destruct (GetAll_Device (bus self) device); cbn; [done | by intros [= <-]].
Qed.

Lemma device_entry_raise self device e :
  device_entry self device = Raise e <-> GetAll_Device (bus self) device = Raise e.
Proof.
  unfold device_entry. destruct (GetAll_Device (bus self) device); cbn;
    split; congruence.
Qed.

(** X23.  The only errors of [get_connection_device_path] are the
    errors of its reads: when it raises, the read of the device list or
    of one listed device raised that error.  Popping the available
    connections never raises, since empty collections are skipped. *)
Theorem get_connection_device_path_errors self connection_settings_path e :
  get_connection_device_path self connection_settings_path = Raise e ->
  AllDevices (bus self) = Raise e
  \/ exists devices device,
      AllDevices (bus self) = Ok devices
      /\ device ∈ devices
      /\ GetAll_Device (bus self) device = Raise e.
Proof.
  unfold get_connection_device_path.
  destruct (AllDevices (bus self)) as [devices | e0]; cbn;
    [| by intros [= <-]; left].
  intros Hr. right. exists devices.
  cut (exists device,
          device ∈ devices /\ GetAll_Device (bus self) device = Raise e).
  { intros (device & H). by exists device. }
  induction devices as [| device rest IH]; [done |].
  destruct (device_entry self device) as [entry |  e1] eqn:Hentry.
  - destruct (device_loop_step self connection_settings_path device rest
                entry Hentry) as [_ Hstep].
    rewrite Hstep in Hr. case_bool_decide; [done |].
    destruct (IH Hr) as (d & Hin & Hd). exists d.
    split; [by apply elem_of_cons; right | done].
  - rewrite (device_loop_raise _ _ _ _ _ Hentry) in Hr. injection Hr as ->.
    exists device. split; [by apply elem_of_cons; left |].
    by apply device_entry_raise.
Qed.

Lemma device_loop_skip self path before entries rest :
  mapM (device_entry self) before = Ok entries ->
  Forall (fun x => last x.2 <> Some path) entries ->
  get_connection_device_path_loop self path (before ++ rest)
  = get_connection_device_path_loop self path rest.
Proof.
  revert entries.
  induction before as [| device before IH]; intros entries Hmap Hall; [done |].
  apply mapM_cons_Ok in Hmap as (entry & entries' & Hentry & Hrest & ->).
  apply Forall_cons in Hall as [Hne Hall]. rewrite <- app_comm_cons.
  destruct (device_loop_step self path device (before ++ rest) entry Hentry)
    as [_ ->].
  rewrite bool_decide_eq_false_2 by done. eauto.
Qed.

(** X24.  The scan of the devices stops at the first device whose
    available connections end with the path: the devices after it are
    not read, so they may be unreadable without any effect. *)
Theorem get_connection_device_path_stops_at_match
    self connection_settings_path devices before device after entries
    available :
  AllDevices (bus self) = Ok devices ->
  devices = before ++ device :: after ->
  mapM (device_entry self) before = Ok entries ->
  Forall (fun x => last x.2 <> Some connection_settings_path) entries ->
  GetAll_Device (bus self) device
  = Ok {| AvailableConnections := available |} ->
  last available = Some connection_settings_path ->
  get_connection_device_path self connection_settings_path
  = Ok (Some device).
Proof.
  intros Hdevices -> Hbefore Hnone Hread Hlast.
  unfold get_connection_device_path. rewrite Hdevices. cbn.
  rewrite (device_loop_skip _ _ _ _ _ Hbefore Hnone).
  assert (Hentry : device_entry self device = Ok (device, available)).
  { unfold device_entry. by rewrite Hread. }
  destruct (device_loop_step self connection_settings_path device after _
              Hentry) as [_ ->].
  cbn. by rewrite bool_decide_eq_true_2.
Qed.

Lemma is_protonvpn_being_prepared_sound_witness :
  exists props,
    get_active_conn_props nm "/Active/3" = Ok props
    /\ ac_Type props = "vpn".
Proof.
  destruct (is_protonvpn_being_prepared_sound nm
              (true, Some 2, Some "/Active/3"))
    as [Hnone | (l & ac & props & s & _ & _ & Hprops & _ & Hty & _ & Hinfo)];
    [reflexivity | discriminate Hnone |].
  injection Hinfo as _ <-. by exists props.
Defined.

Lemma is_protonvpn_being_prepared_read_error_witness :
  is_protonvpn_being_prepared
    (with_active ["/Active/1"; "/Active/3"; "/Active/4"])
  = Raise (Raised KeyError "'data'")
  /\ is_protonvpn_being_prepared
       (with_active ["/Active/2"; "/Active/8"; "/Active/1"])
     = Raise (Raised DBusException "No such object").
Proof.
  split.
  - apply (is_protonvpn_being_prepared_read_error
             (with_active ["/Active/1"; "/Active/3"; "/Active/4"])
             ["/Active/1"; "/Active/3"; "/Active/4"]
             ["/Active/1"; "/Active/3"] "/Active/4" []
             [ {| ai_path := "/Active/1"; ai_state := 2; ai_found := false |};
               {| ai_path := "/Active/3"; ai_state := 2; ai_found := true |} ]);
      reflexivity.
  - apply (is_protonvpn_being_prepared_read_error
             (with_active ["/Active/2"; "/Active/8"; "/Active/1"])
             ["/Active/2"; "/Active/8"; "/Active/1"]
             ["/Active/2"] "/Active/8" ["/Active/1"]
             [ {| ai_path := "/Active/2"; ai_state := 1; ai_found := true |} ]);
      reflexivity.
Defined.

Lemma is_protonvpn_being_prepared_returns_witness :
  is_ok (is_protonvpn_being_prepared nm) = true.
Proof.
  apply (is_protonvpn_being_prepared_returns nm
           ["/Active/1"; "/Active/2"; "/Active/3"]); [reflexivity |].
  apply Forall_cons. split.
  { eexists _, _. split; [reflexivity |]. split; [reflexivity | done]. }
  apply Forall_cons. split.
  { eexists _, _. split; [reflexivity |]. split; [reflexivity |].
    intros _. by exists "proton0". }
  apply Forall_cons. split; [| apply Forall_nil_2].
  eexists _, _. split; [reflexivity |]. split; [reflexivity |].
  intros _. by exists "proton0".
Defined.

Lemma get_connection_device_path_errors_witness :
  exists device,
    device ∈ ["/Devices/1"; "/Devices/7"]
    /\ GetAll_Device nm_bus device
       = Raise (Raised DBusException "No such object").
Proof.
  destruct (get_connection_device_path_errors
              (with_devices ["/Devices/1"; "/Devices/7"])
              "/Settings/2" (Raised DBusException "No such object"))
    as [Hlist | (devices & device & Hlist & Hin & Hread)];
    [reflexivity | discriminate Hlist |].
  injection Hlist as <-. by exists device.
Defined.

Lemma get_connection_device_path_stops_at_match_witness :
  get_connection_device_path
    (with_devices ["/Devices/3"; "/Devices/1"; "/Devices/7"])
    "/Settings/1" = Ok (Some "/Devices/1").
Proof.
  eapply (get_connection_device_path_stops_at_match _ "/Settings/1"
            ["/Devices/3"; "/Devices/1"; "/Devices/7"]
            ["/Devices/3"] "/Devices/1" ["/Devices/7"]
            [("/Devices/3", [])]).
  - reflexivity.
  - reflexivity.
  - reflexivity.
  - by apply Forall_singleton.
  - reflexivity.
  - reflexivity.
Defined.

End ScanProperties.

(** ** More properties of the lifecycle controller *)

Section LifecycleProperties.
Import Dbus DbusInterfaces Conn Scenario Hosts.

Ltac run_M :=
  cbv [disconnect _post_disconnect _pre_setup_connection setup_connection
       connect try_except perform lift raise mbind mret M_bind M_ret
       settings_killswitch].

(** X25.  When [user_data] has no credentials or no dns entry,
    [setup_connection] raises [AttributeError] before anything else
    happens: no actuator is called and no profile is created. *)
Theorem setup_connection_missing_user_data env self server_data user_data h :
  credentials user_data = None \/ dns user_data = None ->
  setup_connection self server_data user_data env h
  = ([], Raise (Raised AttributeError
                  "'NoneType' object has no attribute 'get'")).
Proof.
  intros Hmissing. rewrite setup_connection_unfold. unfold build_kwargs.
  destruct user_data as [[d |] [c |]]; cbn; try done.
  by destruct Hmissing.
Qed.

(** X26.  When the user of the controller has not been set,
    [setup_connection] (with complete user data) enables IPv6 leak
    protection if it is configured, then raises [AttributeError]: the
    kill switch is not called and the profile is not created, but the
    leak protection stays switched on. *)
Theorem setup_connection_without_user
    env self server_data user_data h kwargs :
  protonvpn_user self = None ->
  build_kwargs server_data user_data = Ok kwargs ->
  (enable_ipv6_leak_protection self = true ->
   env h (ipv6_lp_manage ENABLE) = Ok tt) ->
  setup_connection self server_data user_data env h
  = (if enable_ipv6_leak_protection self then [ipv6_lp_manage ENABLE]
     else [],
     Raise (Raised AttributeError
              "'NoneType' object has no attribute 'settings'")).
Proof.
  intros Huser Hkw Hlp. rewrite setup_connection_unfold, Hkw.
  destruct self as [lp user]. cbn in Huser, Hlp. subst user.
  destruct lp; run_M; cbn; [by rewrite Hlp | done].
Qed.

(** X27.  A full cycle, setup then connect then disconnect, with
    collaborators that do not raise, makes these calls in this order:
    IPv6 [ENABLE] if configured, kill switch [PRE_CONNECTION] with the
    entry IP in hard mode, profile creation, activation, removal, daemon
    stop, IPv6 [DISABLE], and kill switch [DISABLE] in soft mode.  So
    in hard mode the kill switch is never disabled, in soft mode it is
    never put in pre-connection mode, and IPv6 leak protection is
    disabled even when it was not enabled. *)
Theorem lifecycle_calls env self server_data user_data h kwargs mode :
  (forall h' call, env h' call = Ok tt) ->
  build_kwargs server_data user_data = Ok kwargs ->
  protonvpn_user self = Some mode ->
  (setup_connection self server_data user_data;; connect self;;
   disconnect self) env h
  = ((if enable_ipv6_leak_protection self then [ipv6_lp_manage ENABLE]
      else [])
     ++ (if bool_decide (mode = HARD)
         then [killswitch_manage PRE_CONNECTION
                 (server_data !! "server_entry_ip")]
         else [])
     ++ [vpn_add_connection kwargs; vpn_connect; vpn_remove_connection;
         stop_daemon_reconnector; ipv6_lp_manage DISABLE]
     ++ (if bool_decide (mode = SOFT)
         then [killswitch_manage DISABLE None] else []),
     Ok tt).
Proof.
  intros Henv Hkw Hmode. destruct self as [lp user]. cbn in Hmode.
  subst user. run_M. rewrite Hkw.
  destruct lp, mode;
    repeat first [ rewrite Henv
                 | rewrite bool_decide_eq_true_2 by done
                 | rewrite bool_decide_eq_false_2 by done
                 | progress cbn ];
    reflexivity.
Qed.

(** X28.  An error of a post-disconnect step is raised as it is, not
    turned into [ConnectionNotFound] or "Unknown error", and ends the
    sequence: when the daemon stop raises, IPv6 leak protection is not
    disabled; when the IPv6 [DISABLE] raises, the kill switch is not
    called. *)
Theorem disconnect_post_disconnect_error env self h e :
  env h vpn_remove_connection = Ok tt ->
  (env (h ++ [vpn_remove_connection]) stop_daemon_reconnector = Raise e ->
   disconnect self env h
   = ([vpn_remove_connection; stop_daemon_reconnector], Raise e))
  /\ (env (h ++ [vpn_remove_connection]) stop_daemon_reconnector = Ok tt ->
      env (h ++ [vpn_remove_connection; stop_daemon_reconnector])
        (ipv6_lp_manage DISABLE) = Raise e ->
      disconnect self env h
      = ([vpn_remove_connection; stop_daemon_reconnector;
          ipv6_lp_manage DISABLE], Raise e)).
Proof.
  intros Hrm. rewrite (disconnect_removal_returns _ _ _ Hrm).
  split.
  - intros Hstop. run_M. by rewrite Hstop.
  - intros Hstop Hlp. run_M. rewrite Hstop. cbn.
    rewrite <- app_assoc. cbn. by rewrite Hlp.
Qed.

(** X29.  [setup_connection] only ever calls IPv6 [ENABLE], kill switch
    [PRE_CONNECTION] with the entry IP, and the profile creation;
    [disconnect] only ever calls the removal, the daemon stop, IPv6
    [DISABLE] and kill switch [DISABLE].  Neither relaxes or arms what
    the other is in charge of, whatever the collaborators do. *)
Theorem lifecycle_call_alphabet env self server_data user_data h call :
  (call ∈ (setup_connection self server_data user_data env h).1 ->
   call = ipv6_lp_manage ENABLE
   \/ call = killswitch_manage PRE_CONNECTION
              (server_data !! "server_entry_ip")
   \/ exists kwargs, call = vpn_add_connection kwargs)
  /\ (call ∈ (disconnect self env h).1 ->
      call ∈ [vpn_remove_connection; stop_daemon_reconnector;
              ipv6_lp_manage DISABLE; killswitch_manage DISABLE None]).
Proof.
  split.
  - rewrite setup_connection_unfold.
    destruct (build_kwargs server_data user_data) as [kwargs | e]; cbn;
      [| by intros ?%elem_of_nil].
    assert (Hpre : forall j c,
      (_pre_setup_connection self (server_data !! "server_entry_ip") env h).1
        !! j = Some c ->
      c = ipv6_lp_manage ENABLE
      \/ c = killswitch_manage PRE_CONNECTION
              (server_data !! "server_entry_ip")
      \/ exists kwargs, c = vpn_add_connection kwargs).
    { intros j c Hj. apply pre_setup_calls in Hj as [[-> _] | [-> _]]; auto. }
    destruct (_pre_setup_connection _ _ _ _).2 as [[] | e]; cbn.
    + intros [Hin | Hin]%elem_of_app.
      * apply list_elem_of_lookup in Hin as [j Hj]. by apply (Hpre j).
      * apply list_elem_of_singleton in Hin as ->. right. right. by eexists.
    + intros [j Hj]%list_elem_of_lookup. by apply (Hpre j).
  - destruct (env h vpn_remove_connection) as [[] | e] eqn:Hrm.
    + rewrite (disconnect_removal_returns _ _ _ Hrm). cbn.
      intros [-> | Hin]%elem_of_cons; [by apply elem_of_cons; left |].
      apply elem_of_cons. right. revert Hin.
      destruct self as [lp [[] |]]; run_M; cbn;
        destruct (env _ stop_daemon_reconnector) as [[] | e1]; cbn;
        try destruct (env _ (ipv6_lp_manage DISABLE)) as [[] | e2]; cbn;
        try destruct (env _ (killswitch_manage DISABLE None)) as [[] | e3];
        cbn; intros Hin;
        repeat (apply elem_of_cons in Hin as [-> | Hin];
                [by repeat (first [apply list_elem_of_here
                                  | apply list_elem_of_further]) |]);
        by apply elem_of_nil in Hin.
    + rewrite (disconnect_removal_raises _ _ _ _ Hrm). cbn.
      intros ->%list_elem_of_singleton. by apply elem_of_cons; left.
Qed.

(** X30.  [activate_connection] passes "/" for a specific object that is
    left out or empty, and never returns an empty path: when the
    service gives no path the result is [None]. *)
Theorem activate_connection_result
    ActivateConnection connection_settings_path device_path specific_object :
  activate_connection ActivateConnection connection_settings_path device_path
    None
  = activate_connection ActivateConnection connection_settings_path
      device_path (Some "/")
  /\ activate_connection ActivateConnection connection_settings_path
       device_path (Some "")
     = activate_connection ActivateConnection connection_settings_path
         device_path (Some "/")
  /\ activate_connection ActivateConnection connection_settings_path
       device_path specific_object <> Ok (Some "")
  /\ (forall object,
        object <> "" ->
        ActivateConnection connection_settings_path device_path object
        = Ok "" ->
        activate_connection ActivateConnection connection_settings_path
          device_path (Some object) = Ok None).
Proof.
  unfold activate_connection. split; [done |]. split; [done |]. split.
  - destruct (ActivateConnection _ _ _) as [path | e]; cbn; [| done].
    destruct path; cbn; [done |]. by intros [=].
  - intros object Hobject Hempty.
    assert (Htruthy : truthy object = true).
    { unfold truthy. by rewrite bool_decide_eq_false_2. }
    rewrite Htruthy. by rewrite Hempty.
Qed.

Lemma setup_connection_missing_user_data_witness :
  setup_connection hard_user server
    {| dns := None; credentials := credentials user |} env_ok []
  = ([], Raise (Raised AttributeError
                  "'NoneType' object has no attribute 'get'")).
Proof.
  apply setup_connection_missing_user_data. by right.
Defined.

Lemma setup_connection_without_user_witness :
  setup_connection no_user server user env_ok []
  = ([ipv6_lp_manage ENABLE],
     Raise (Raised AttributeError
              "'NoneType' object has no attribute 'settings'")).
Proof.
  eapply (setup_connection_without_user env_ok no_user server user []);
    reflexivity.
Defined.

Lemma lifecycle_calls_witness :
  ((setup_connection hard_user server user;; connect hard_user;;
    disconnect hard_user) env_ok []).1
  = [ipv6_lp_manage ENABLE;
     killswitch_manage PRE_CONNECTION (Some "185.159.157.1");
     vpn_add_connection
       {| kw_username := Some (PyStr "user");
          kw_password := Some (PyStr "secret");
          kw_domain := Some "node-ch-01.protonvpn.net";
          kw_servername := Some "CH#1";
          kw_dns_status := Some (PyInt 1);
          kw_custom_dns := Some (PyList []) |};
     vpn_connect; vpn_remove_connection; stop_daemon_reconnector;
     ipv6_lp_manage DISABLE].
Proof.
  erewrite (lifecycle_calls env_ok hard_user server user [] _ HARD);
    [| done | reflexivity | reflexivity].
  reflexivity.
Defined.

Lemma disconnect_post_disconnect_error_witness :
  disconnect soft_user env_daemon_error []
  = ([vpn_remove_connection; stop_daemon_reconnector],
     Raise (Raised (OtherException "CalledProcessError") "systemctl")).
Proof.
  destruct (disconnect_post_disconnect_error env_daemon_error soft_user []
              (Raised (OtherException "CalledProcessError") "systemctl"))
    as [Hstop _]; [reflexivity |].
  apply Hstop. reflexivity.
Defined.

Lemma lifecycle_call_alphabet_witness :
  ipv6_lp_manage DISABLE
  ∈ [vpn_remove_connection; stop_daemon_reconnector;
     ipv6_lp_manage DISABLE; killswitch_manage DISABLE None].
Proof.
  destruct (lifecycle_call_alphabet env_ok soft_user server user []
              (ipv6_lp_manage DISABLE)) as [_ Hdisconnect].
  apply Hdisconnect.
  apply elem_of_cons. right. apply elem_of_cons. right.
  apply elem_of_cons. by left.
Defined.

Lemma activate_connection_result_witness :
  activate_connection activate_ok "/Settings/2" "/Devices/1" None
  = activate_connection activate_ok "/Settings/2" "/Devices/1" (Some "/").
Proof.
  apply (activate_connection_result activate_ok "/Settings/2" "/Devices/1"
           None).
Defined.

End LifecycleProperties.
